(** * robo-data-fabric frontend: the two Pinia stores and the SQL preview

    A shallow embedding of
    - [frontend/src/types/index.ts]            (the records),
    - [frontend/src/api/client.ts]             (the requests a store issues),
    - [frontend/src/stores/datasources.ts]     (the datasource store),
    - [frontend/src/stores/query.ts]           (the query store),
    - [frontend/src/views/MaterializedTables.vue] ([sqlPreview]).

  An [async] action of a store is split where it awaits: the code that runs
  before the [await] ([*_call]: it returns the state that is observable
  while the request is in flight, and the requests issued), and the code
  that runs when the promise settles ([*_resume]).  The network is the
  environment: what a request settles to is an argument. *)

From stdpp Require Import base list strings sorting pretty gmap.

Open Scope Z_scope.

(** ** The fragment of JavaScript the stores rely on *)

Module Js.

(** JS numbers that the stores only pass through or print; integer valued. *)
Definition number := Z.

(** A value of TypeScript type [any]. *)
Inductive any :=
| Null
| Bool (b : bool)
| Num (n : number)
| Str (s : string).

(** [!!s] for a string: only the empty string is falsy. *)
Definition truthy (s : string) : bool := negb (String.eqb s "").

(** [!!x] for [x : string | null | undefined]. *)
Definition truthy_opt (x : option string) : bool :=
  match x with
  | Some s => truthy s
  | None => false
  end.

(** [!!n] for [n : number | undefined] (no NaN among the integers). *)
Definition truthy_num (n : option number) : bool :=
  match n with
  | Some k => negb (k =? 0)
  | None => false
  end.

(** [a || b] on [string | undefined]. *)
Definition or (a b : option string) : option string :=
  if truthy_opt a then a else b.

(** [`${n}`] for an integer below 10^21 in magnitude. *)
Definition template_num (n : number) : string := pretty n.

(** [arr.join(sep)] on an array of strings. *)
Definition join (sep : string) (arr : list string) : string :=
  String.concat sep arr.

(** The index [Array.prototype.slice] starts from: a negative [start]
    counts from the end, and both ends are clamped. *)
Definition slice_from (len : nat) (start : Z) : nat :=
  if start <? 0 then Z.to_nat (Z.max (Z.of_nat len + start) 0)
  else Z.to_nat (Z.min start (Z.of_nat len)).

(** Arrays are objects: a variable holds a reference, and [sort] and
    [reverse] work in place on what it refers to, while the spread
    [[...a]] and [slice] allocate.  The heap is the list of the arrays
    allocated so far; a reference is an index into it. *)
Abbreviation ref := nat (only parsing).
Abbreviation heap A := (list (list A)) (only parsing).

Section Arrays.
Context {A : Type}.

Definition deref (h : heap A) (r : ref) : list A := default [] (h !! r).

Definition alloc (v : list A) (h : heap A) : ref * heap A :=
  (length h, h ++ [v]).

(** [[...a]] *)
Definition spread (a : ref) (h : heap A) : ref * heap A :=
  alloc (deref h a) h.

(** [a.slice(start)] *)
Definition slice (start : Z) (a : ref) (h : heap A) : ref * heap A :=
  alloc (drop (slice_from (length (deref h a)) start) (deref h a)) h.

(** [a.reverse()]: reverses [a] itself and returns [a]. *)
Definition reverse_in_place (a : ref) (h : heap A) : ref * heap A :=
  (a, <[a := reverse (deref h a)]> h).

(** The order a comparator [cmp] of [sort] asks for: [x] may stand before
    [y] when [cmp(x, y) <= 0]. *)
Definition before (cmp : A → A → Z) : relation A := λ x y, cmp x y ≤ 0.

#[global] Instance before_dec cmp x y : Decision (before cmp x y).
Proof. unfold before. apply _. Defined.

(** The sort of [Array.prototype.sort] is stable (ECMAScript 2019): an
    element goes before the first one that [cmp] puts strictly after it,
    so elements that compare equal keep their order. *)
Fixpoint insert_stable (cmp : A → A → Z) (x : A) (l : list A) : list A :=
  match l with
  | [] => [x]
  | y :: l' =>
      if decide (before cmp x y) then x :: y :: l'
      else y :: insert_stable cmp x l'
  end.

Fixpoint stable_sort (cmp : A → A → Z) (l : list A) : list A :=
  match l with
  | [] => []
  | x :: l' => insert_stable cmp x (stable_sort cmp l')
  end.

(** [a.sort(cmp)]: sorts [a] itself and returns [a]. *)
Definition sort_in_place (cmp : A → A → Z) (a : ref) (h : heap A)
  : ref * heap A :=
  (a, <[a := stable_sort cmp (deref h a)]> h).

(** [a.push(x)], as the new contents of [a]. *)
Definition push (x : A) (arr : list A) : list A := arr ++ [x].

End Arrays.

End Js.

(** ** [types/index.ts] *)

Module DataSourceField.
Inductive kind := text | number | password.
Record t := {
  name : string;
  label : string;
  type : kind;
  required : bool;
  default : option Js.any;
}.
End DataSourceField.

Module DataSourceTypeConfig.
Record t := {
  type : string;
  display_name : string;
  icon : string;
  fields : list DataSourceField.t;
}.
End DataSourceTypeConfig.

Module DataSource.
Record t := {
  name : string;
  engine : string;
  tables : list string;
}.
End DataSource.

Module TableColumn.
Record t := {
  name : string;
  type : string;
  nullable : option string;
  key : option string;
}.
End TableColumn.

Module TableSchema.
Record t := {
  table : string;
  columns : list TableColumn.t;
}.
End TableSchema.

Module TableData.
Record t := {
  columns : list string;
  data : list (list Js.any);
  total_rows : Js.number;
}.
End TableData.

Module QueryResult.
Inductive kind := table | ok | error_kind.
Record t := {
  type : kind;
  columns : list string;
  data : list (list Js.any);
  row_count : Js.number;
  error : option string;
  execution_time : option Js.number;
}.

(** [r.type === 'error'] *)
Definition is_error (r : t) : bool :=
  match type r with
  | error_kind => true
  | _ => false
  end.
End QueryResult.

Module MaterializedTableRequest.
Record t := {
  table_name : string;
  source_database : string;
  source_table : string;
  columns : option (list string);
  where_clause : option string;
  limit : option Js.number;
}.
End MaterializedTableRequest.

Module Model.
Record t := {
  name : string;
  status : string;
  predict : option string;
  engine : option string;
}.
End Model.

Module Job.
Record t := {
  name : string;
  schedule : option string;
  next_run : option string;
}.
End Job.

Module KnowledgeBase.
Record t := {
  name : string;
  model : option string;
}.
End KnowledgeBase.

Module MindsDBStatus.
Record t := {
  connected : bool;
  version : option string;
  error : option string;
}.
End MindsDBStatus.

(** ** [api/client.ts] *)

Module Api.

(** The calls of [datasourcesApi] and [queryApi], as the requests they
    send.  Each is one round trip. *)
Inductive Request :=
| getTypes
| list
| create (name engine : string) (parameters : gmap string Js.any)
| delete (name : string)
| getTables (name : string)
| getTableSchema (name table : string)
| getSampleData (name table : string) (limit : Js.number)
| testConnection (name : string)
| execute (query : string)
| getStatus
| createMaterializedTable (data : MaterializedTableRequest.t)
| getModels
| getJobs
| getKnowledgeBases.

(** What a [catch (e: any)] of a store reads from the thrown value:
    [e.response?.data?.detail] and [e.message]. *)
Record Failure := {
  detail : option string;
  message : option string;
}.

(** How the promise of a call settles. *)
Inductive Settled (A : Type) :=
| Fulfilled (a : A)
| Rejected (e : Failure).
Arguments Fulfilled {A} a.
Arguments Rejected {A} e.

(** [e.response?.data?.detail || e.message || fallback] *)
Definition detail_or_message (e : Failure) (fallback : string)
  : option string :=
  Js.or (Js.or (detail e) (message e)) (Some fallback).

(** [e.message || fallback] *)
Definition message_or (e : Failure) (fallback : string) : option string :=
  Js.or (message e) (Some fallback).

(** [await Promise.all([p, q])]: both values when both fulfil, otherwise
    the reason of the promise that rejects first; [p_first] tells whether
    [p] settles before [q]. *)
Definition all2 {A B : Type} (p_first : bool)
    (p : Settled A) (q : Settled B) : Settled (A * B) :=
  match p, q with
  | Fulfilled a, Fulfilled b => Fulfilled (a, b)
  | Rejected e, Fulfilled _ => Rejected e
  | Fulfilled _, Rejected e => Rejected e
  | Rejected e1, Rejected e2 => Rejected (if p_first then e1 else e2)
  end.

End Api.

(** ** [stores/datasources.ts]: [useDatasourcesStore] *)

Module Datasources.
Record State := {
  datasources : list DataSource.t;
  datasourceTypes : list DataSourceTypeConfig.t;
  selectedDatasource : option DataSource.t;
  tables : list string;
  selectedTable : option string;
  tableSchema : option TableSchema.t;
  tableData : option TableData.t;
  loading : bool;
  error : option string;
}.

(** The store as [defineStore] creates it. *)
Definition init : State := {|
  datasources := [];
  datasourceTypes := [];
  selectedDatasource := None;
  tables := [];
  selectedTable := None;
  tableSchema := None;
  tableData := None;
  loading := false;
  error := None;
|}.

(** [field.value = v], one definition per [ref] of the store. *)
Definition set_datasources (v : list DataSource.t) (s : State) : State :=
  {| datasources := v; datasourceTypes := datasourceTypes s;
     selectedDatasource := selectedDatasource s; tables := tables s;
     selectedTable := selectedTable s; tableSchema := tableSchema s;
     tableData := tableData s; loading := loading s; error := error s |}.

Definition set_datasourceTypes (v : list DataSourceTypeConfig.t) (s : State)
  : State :=
  {| datasources := datasources s; datasourceTypes := v;
     selectedDatasource := selectedDatasource s; tables := tables s;
     selectedTable := selectedTable s; tableSchema := tableSchema s;
     tableData := tableData s; loading := loading s; error := error s |}.

Definition set_selectedDatasource (v : option DataSource.t) (s : State)
  : State :=
  {| datasources := datasources s; datasourceTypes := datasourceTypes s;
     selectedDatasource := v; tables := tables s;
     selectedTable := selectedTable s; tableSchema := tableSchema s;
     tableData := tableData s; loading := loading s; error := error s |}.

Definition set_tables (v : list string) (s : State) : State :=
  {| datasources := datasources s; datasourceTypes := datasourceTypes s;
     selectedDatasource := selectedDatasource s; tables := v;
     selectedTable := selectedTable s; tableSchema := tableSchema s;
     tableData := tableData s; loading := loading s; error := error s |}.

Definition set_selectedTable (v : option string) (s : State) : State :=
  {| datasources := datasources s; datasourceTypes := datasourceTypes s;
     selectedDatasource := selectedDatasource s; tables := tables s;
     selectedTable := v; tableSchema := tableSchema s;
     tableData := tableData s; loading := loading s; error := error s |}.

Definition set_tableSchema (v : option TableSchema.t) (s : State) : State :=
  {| datasources := datasources s; datasourceTypes := datasourceTypes s;
     selectedDatasource := selectedDatasource s; tables := tables s;
     selectedTable := selectedTable s; tableSchema := v;
     tableData := tableData s; loading := loading s; error := error s |}.

Definition set_tableData (v : option TableData.t) (s : State) : State :=
  {| datasources := datasources s; datasourceTypes := datasourceTypes s;
     selectedDatasource := selectedDatasource s; tables := tables s;
     selectedTable := selectedTable s; tableSchema := tableSchema s;
     tableData := v; loading := loading s; error := error s |}.

Definition set_loading (v : bool) (s : State) : State :=
  {| datasources := datasources s; datasourceTypes := datasourceTypes s;
     selectedDatasource := selectedDatasource s; tables := tables s;
     selectedTable := selectedTable s; tableSchema := tableSchema s;
     tableData := tableData s; loading := v; error := error s |}.

Definition set_error (v : option string) (s : State) : State :=
  {| datasources := datasources s; datasourceTypes := datasourceTypes s;
     selectedDatasource := selectedDatasource s; tables := tables s;
     selectedTable := selectedTable s; tableSchema := tableSchema s;
     tableData := tableData s; loading := loading s; error := v |}.

(** *** Getters *)

Definition hasDatasources (s : State) : bool :=
  bool_decide (0 < length (datasources s))%nat.

Section Getters.
(** [String.prototype.localeCompare], the collation of the host. *)
Variable localeCompare : string → string → Z.

(** [(a, b) => a.name.localeCompare(b.name)] *)
Definition by_name (a b : DataSource.t) : Z :=
  localeCompare (DataSource.name a) (DataSource.name b).

(** [[...datasources.value].sort(...)] on references: [catalog] is the
    array [datasources.value] refers to. *)
Definition sortedDatasources_eval (catalog : Js.ref)
    (h : Js.heap DataSource.t) : Js.ref * Js.heap DataSource.t :=
  let '(copy, h1) := Js.spread catalog h in
  Js.sort_in_place by_name copy h1.

(** The getter on a store: the heap holds the catalog alone, at reference
    0; the result is the array the getter returns, with the store as the
    evaluation leaves it. *)
Definition sortedDatasources (s : State) : list DataSource.t * State :=
  let '(r, h) := sortedDatasources_eval 0%nat [datasources s] in
  (Js.deref h r, set_datasources (Js.deref h 0%nat) s).
End Getters.

(** *** Actions *)

Definition fetchTypes_call (s : State) : State * list Api.Request :=
  (s, [Api.getTypes]).

Definition fetchTypes_resume (r : Api.Settled (list DataSourceTypeConfig.t))
    (s : State) : State :=
  match r with
  | Api.Fulfilled types => set_datasourceTypes types s
  | Api.Rejected e =>
      set_error (Api.message_or e "Failed to fetch data source types") s
  end.

Definition fetchTypes (r : Api.Settled (list DataSourceTypeConfig.t))
    (s : State) : State :=
  fetchTypes_resume r (fetchTypes_call s).1.

Definition fetchDatasources_call (s : State) : State * list Api.Request :=
  (set_error None (set_loading true s), [Api.list]).

Definition fetchDatasources_resume (r : Api.Settled (list DataSource.t))
    (s : State) : State :=
  set_loading false
    match r with
    | Api.Fulfilled ds => set_datasources ds s
    | Api.Rejected e => set_error (Api.message_or e "Failed to fetch data sources") s
    end.

Definition fetchDatasources (r : Api.Settled (list DataSource.t)) (s : State)
  : State :=
  fetchDatasources_resume r (fetchDatasources_call s).1.

Definition createDatasource_call (name engine : string)
    (parameters : gmap string Js.any) (s : State) : State * list Api.Request :=
  (set_error None (set_loading true s), [Api.create name engine parameters]).

Definition createDatasource_resume (r : Api.Settled DataSource.t) (s : State)
  : bool * State :=
  match r with
  | Api.Fulfilled newDatasource =>
      (true,
       set_loading false
         (set_datasources (Js.push newDatasource (datasources s)) s))
  | Api.Rejected e =>
      (false,
       set_loading false
         (set_error (Api.detail_or_message e "Failed to create data source") s))
  end.

Definition createDatasource (name engine : string)
    (parameters : gmap string Js.any) (r : Api.Settled DataSource.t) (s : State)
  : bool * State :=
  createDatasource_resume r (createDatasource_call name engine parameters s).1.

Definition deleteDatasource_call (name : string) (s : State)
  : State * list Api.Request :=
  (set_error None (set_loading true s), [Api.delete name]).

(** [selectedDatasource.value?.name === name] *)
Definition selected_is (name : string) (s : State) : bool :=
  match selectedDatasource s with
  | Some d => bool_decide (DataSource.name d = name)
  | None => false
  end.

Definition deleteDatasource_resume (name : string) (r : Api.Settled string)
    (s : State) : bool * State :=
  match r with
  | Api.Fulfilled _ =>
      let s1 :=
        set_datasources
          (filter (λ ds, DataSource.name ds ≠ name) (datasources s)) s in
      let s2 :=
        if selected_is name s1 then
          set_tableData None
            (set_tableSchema None
               (set_selectedTable None
                  (set_tables [] (set_selectedDatasource None s1))))
        else s1 in
      (true, set_loading false s2)
  | Api.Rejected e =>
      (false,
       set_loading false
         (set_error (Api.detail_or_message e "Failed to delete data source") s))
  end.

Definition deleteDatasource (name : string) (r : Api.Settled string) (s : State)
  : bool * State :=
  deleteDatasource_resume name r (deleteDatasource_call name s).1.

Definition fetchTables_call (datasourceName : string) (s : State)
  : State * list Api.Request :=
  (set_error None (set_loading true s), [Api.getTables datasourceName]).

Definition fetchTables_resume (r : Api.Settled (list string)) (s : State)
  : State :=
  set_loading false
    match r with
    | Api.Fulfilled tbls => set_tables tbls s
    | Api.Rejected e =>
        set_tables []
          (set_error (Api.detail_or_message e "Failed to fetch tables") s)
    end.

Definition fetchTables (datasourceName : string) (r : Api.Settled (list string))
    (s : State) : State :=
  fetchTables_resume r (fetchTables_call datasourceName s).1.

Definition selectDatasource_call (datasource : DataSource.t) (s : State)
  : State * list Api.Request :=
  fetchTables_call (DataSource.name datasource)
    (set_tableData None
       (set_tableSchema None
          (set_selectedTable None
             (set_selectedDatasource (Some datasource) s)))).

Definition selectDatasource (datasource : DataSource.t)
    (r : Api.Settled (list string)) (s : State) : State :=
  fetchTables_resume r (selectDatasource_call datasource s).1.

(** [None]: the guard [if (!selectedDatasource.value) return;] fired. *)
Definition selectTable_call (tableName : string) (s : State)
  : option (State * list Api.Request) :=
  match selectedDatasource s with
  | None => None
  | Some d =>
      Some (set_error None
              (set_loading true (set_selectedTable (Some tableName) s)),
            [Api.getTableSchema (DataSource.name d) tableName;
             Api.getSampleData (DataSource.name d) tableName 10])
  end.

Definition selectTable_resume (r : Api.Settled (TableSchema.t * TableData.t))
    (s : State) : State :=
  set_loading false
    match r with
    | Api.Fulfilled (schemaResponse, dataResponse) =>
        set_tableData (Some dataResponse)
          (set_tableSchema (Some schemaResponse) s)
    | Api.Rejected e =>
        set_error (Api.detail_or_message e "Failed to fetch table info") s
    end.

(** A whole run of [selectTable]: [schema] and [sample] are what the two
    requests settle to, [schema_first] whether the schema settles first. *)
Definition selectTable (tableName : string) (schema_first : bool)
    (schema : Api.Settled TableSchema.t) (sample : Api.Settled TableData.t)
    (s : State) : State :=
  match selectTable_call tableName s with
  | None => s
  | Some (s1, _) => selectTable_resume (Api.all2 schema_first schema sample) s1
  end.

(** The states of the store that other code can see from the call on: the
    one left at the [await], and the one left when the action returns. *)
Definition selectTable_observable (tableName : string) (schema_first : bool)
    (schema : Api.Settled TableSchema.t) (sample : Api.Settled TableData.t)
    (s : State) : list State :=
  match selectTable_call tableName s with
  | None => [s]
  | Some (s1, _) =>
      [s1; selectTable_resume (Api.all2 schema_first schema sample) s1]
  end.

Definition clearError (s : State) : State := set_error None s.

(** The derived state points at a source of the catalog: a schema or a
    sample is held only while a datasource is selected, and that
    datasource names an entry of the catalog. *)
Definition derived_state_in_catalog (s : State) : Prop :=
  is_Some (tableSchema s) ∨ is_Some (tableData s) →
  ∃ sel ds, selectedDatasource s = Some sel ∧ ds ∈ datasources s
            ∧ DataSource.name ds = DataSource.name sel.

End Datasources.

(** ** [stores/query.ts]: [useQueryStore] *)

Module Query.

(** An entry of [queryHistory]; [timestamp] is a [Date], in milliseconds. *)
Record HistoryEntry := {
  query : string;
  timestamp : Js.number;
  success : bool;
}.

Record State := {
  currentQuery : string;
  queryResult : option QueryResult.t;
  queryHistory : list HistoryEntry;
  models : list Model.t;
  jobs : list Job.t;
  knowledgeBases : list KnowledgeBase.t;
  status : option MindsDBStatus.t;
  loading : bool;
  error : option string;
}.

Definition init : State := {|
  currentQuery := "";
  queryResult := None;
  queryHistory := [];
  models := [];
  jobs := [];
  knowledgeBases := [];
  status := None;
  loading := false;
  error := None;
|}.

Definition set_currentQuery (v : string) (s : State) : State :=
  {| currentQuery := v; queryResult := queryResult s;
     queryHistory := queryHistory s; models := models s; jobs := jobs s;
     knowledgeBases := knowledgeBases s; status := status s;
     loading := loading s; error := error s |}.

Definition set_queryResult (v : option QueryResult.t) (s : State) : State :=
  {| currentQuery := currentQuery s; queryResult := v;
     queryHistory := queryHistory s; models := models s; jobs := jobs s;
     knowledgeBases := knowledgeBases s; status := status s;
     loading := loading s; error := error s |}.

Definition set_queryHistory (v : list HistoryEntry) (s : State) : State :=
  {| currentQuery := currentQuery s; queryResult := queryResult s;
     queryHistory := v; models := models s; jobs := jobs s;
     knowledgeBases := knowledgeBases s; status := status s;
     loading := loading s; error := error s |}.

Definition set_models (v : list Model.t) (s : State) : State :=
  {| currentQuery := currentQuery s; queryResult := queryResult s;
     queryHistory := queryHistory s; models := v; jobs := jobs s;
     knowledgeBases := knowledgeBases s; status := status s;
     loading := loading s; error := error s |}.

Definition set_jobs (v : list Job.t) (s : State) : State :=
  {| currentQuery := currentQuery s; queryResult := queryResult s;
     queryHistory := queryHistory s; models := models s; jobs := v;
     knowledgeBases := knowledgeBases s; status := status s;
     loading := loading s; error := error s |}.

Definition set_knowledgeBases (v : list KnowledgeBase.t) (s : State)
  : State :=
  {| currentQuery := currentQuery s; queryResult := queryResult s;
     queryHistory := queryHistory s; models := models s; jobs := jobs s;
     knowledgeBases := v; status := status s;
     loading := loading s; error := error s |}.

Definition set_status (v : option MindsDBStatus.t) (s : State) : State :=
  {| currentQuery := currentQuery s; queryResult := queryResult s;
     queryHistory := queryHistory s; models := models s; jobs := jobs s;
     knowledgeBases := knowledgeBases s; status := v;
     loading := loading s; error := error s |}.

Definition set_loading (v : bool) (s : State) : State :=
  {| currentQuery := currentQuery s; queryResult := queryResult s;
     queryHistory := queryHistory s; models := models s; jobs := jobs s;
     knowledgeBases := knowledgeBases s; status := status s;
     loading := v; error := error s |}.

Definition set_error (v : option string) (s : State) : State :=
  {| currentQuery := currentQuery s; queryResult := queryResult s;
     queryHistory := queryHistory s; models := models s; jobs := jobs s;
     knowledgeBases := knowledgeBases s; status := status s;
     loading := loading s; error := v |}.

(** *** Getters *)

(** [status.value?.connected ?? false] *)
Definition isConnected (s : State) : bool :=
  match status s with
  | Some st => MindsDBStatus.connected st
  | None => false
  end.

(** [queryHistory.value.slice(-10).reverse()] on references: [history] is
    the array [queryHistory.value] refers to. *)
Definition lastQueries_eval (history : Js.ref)
    (h : Js.heap HistoryEntry) : Js.ref * Js.heap HistoryEntry :=
  let '(recent, h1) := Js.slice (-10) history h in
  Js.reverse_in_place recent h1.

(** The getter on a store: the heap holds the log alone, at reference 0;
    the result is the array the getter returns, with the store as the
    evaluation leaves it. *)
Definition lastQueries (s : State) : list HistoryEntry * State :=
  let '(r, h) := lastQueries_eval 0%nat [queryHistory s] in
  (Js.deref h r, set_queryHistory (Js.deref h 0%nat) s).

(** *** Actions *)

Definition checkStatus_call (s : State) : State * list Api.Request :=
  (s, [Api.getStatus]).

Definition checkStatus_resume (r : Api.Settled MindsDBStatus.t) (s : State)
  : State :=
  match r with
  | Api.Fulfilled st => set_status (Some st) s
  | Api.Rejected e =>
      set_status
        (Some {| MindsDBStatus.connected := false;
                 MindsDBStatus.version := None;
                 MindsDBStatus.error := Api.message e |}) s
  end.

Definition executeQuery_call (query : string) (s : State)
  : State * list Api.Request :=
  (set_currentQuery query (set_error None (set_loading true s)),
   [Api.execute query]).

(** [now] is what [new Date()] reads when the promise settles.  The value
    returned is the result the action hands to its caller: the model has
    no exceptional outcome because the [catch] takes every rejection. *)
Definition executeQuery_resume (query : string) (now : Js.number)
    (r : Api.Settled QueryResult.t) (s : State) : QueryResult.t * State :=
  match r with
  | Api.Fulfilled res =>
      let s1 := set_queryResult (Some res) s in
      let s2 :=
        set_queryHistory
          (Js.push {| query := query; timestamp := now;
                      success := negb (QueryResult.is_error res) |}
                   (queryHistory s1)) s1 in
      let s3 :=
        if QueryResult.is_error res then
          set_error
            (Js.or (QueryResult.error res) (Some "Query execution failed")) s2
        else s2 in
      (res, set_loading false s3)
  | Api.Rejected e =>
      let s1 :=
        set_error (Api.detail_or_message e "Failed to execute query") s in
      let res :=
        {| QueryResult.type := QueryResult.error_kind;
           QueryResult.columns := [];
           QueryResult.data := [];
           QueryResult.row_count := 0;
           QueryResult.error := Js.or (error s1) None;
           QueryResult.execution_time := None |} in
      (res, set_loading false (set_queryResult (Some res) s1))
  end.

Definition executeQuery (query : string) (now : Js.number)
    (r : Api.Settled QueryResult.t) (s : State) : QueryResult.t * State :=
  executeQuery_resume query now r (executeQuery_call query s).1.

Definition createMaterializedTable_call (tableName sourceDatabase
    sourceTable : string) (columns : list string)
    (whereClause : option string) (limit : option Js.number) (s : State)
  : State * list Api.Request :=
  (set_error None (set_loading true s),
   [Api.createMaterializedTable
      {| MaterializedTableRequest.table_name := tableName;
         MaterializedTableRequest.source_database := sourceDatabase;
         MaterializedTableRequest.source_table := sourceTable;
         MaterializedTableRequest.columns := Some columns;
         MaterializedTableRequest.where_clause := whereClause;
         MaterializedTableRequest.limit := limit |}]).

Definition createMaterializedTable_resume (r : Api.Settled string)
    (s : State) : bool * State :=
  match r with
  | Api.Fulfilled _ => (true, set_loading false s)
  | Api.Rejected e =>
      (false,
       set_loading false
         (set_error
            (Api.detail_or_message e "Failed to create materialized table")
            s))
  end.

Definition fetchModels_call (s : State) : State * list Api.Request :=
  (s, [Api.getModels]).

Definition fetchModels_resume (r : Api.Settled (list Model.t)) (s : State)
  : State :=
  match r with
  | Api.Fulfilled ms => set_models ms s
  | Api.Rejected e => set_error (Api.message_or e "Failed to fetch models") s
  end.

Definition fetchJobs_call (s : State) : State * list Api.Request :=
  (s, [Api.getJobs]).

Definition fetchJobs_resume (r : Api.Settled (list Job.t)) (s : State)
  : State :=
  match r with
  | Api.Fulfilled js => set_jobs js s
  | Api.Rejected e => set_error (Api.message_or e "Failed to fetch jobs") s
  end.

Definition fetchKnowledgeBases_call (s : State) : State * list Api.Request :=
  (s, [Api.getKnowledgeBases]).

Definition fetchKnowledgeBases_resume
    (r : Api.Settled (list KnowledgeBase.t)) (s : State) : State :=
  match r with
  | Api.Fulfilled kbs => set_knowledgeBases kbs s
  | Api.Rejected e =>
      set_error (Api.message_or e "Failed to fetch knowledge bases") s
  end.

Definition clearResult (s : State) : State :=
  set_error None (set_queryResult None s).

Definition clearError (s : State) : State := set_error None s.

Definition setQuery (query : string) (s : State) : State :=
  set_currentQuery query s.

(** *** The store as a transition system

    What the event loop runs without interruption: the part of an action
    up to its [await], the part after it, or a whole synchronous action.
    Any interleaving of the actions of the store is a list of these. *)
Inductive Step :=
| checkStatus_begin
| checkStatus_settle (r : Api.Settled MindsDBStatus.t)
| executeQuery_begin (query : string)
| executeQuery_settle (query : string) (now : Js.number)
    (r : Api.Settled QueryResult.t)
| createMaterializedTable_begin (tableName sourceDatabase
    sourceTable : string) (columns : list string)
    (whereClause : option string) (limit : option Js.number)
| createMaterializedTable_settle (r : Api.Settled string)
| fetchModels_begin
| fetchModels_settle (r : Api.Settled (list Model.t))
| fetchJobs_begin
| fetchJobs_settle (r : Api.Settled (list Job.t))
| fetchKnowledgeBases_begin
| fetchKnowledgeBases_settle (r : Api.Settled (list KnowledgeBase.t))
| do_clearResult
| do_clearError
| do_setQuery (query : string).

Definition step (s : State) (st : Step) : State :=
  match st with
  | checkStatus_begin => (checkStatus_call s).1
  | checkStatus_settle r => checkStatus_resume r s
  | executeQuery_begin q => (executeQuery_call q s).1
  | executeQuery_settle q now r => (executeQuery_resume q now r s).2
  | createMaterializedTable_begin t d tb cs w l =>
      (createMaterializedTable_call t d tb cs w l s).1
  | createMaterializedTable_settle r => (createMaterializedTable_resume r s).2
  | fetchModels_begin => (fetchModels_call s).1
  | fetchModels_settle r => fetchModels_resume r s
  | fetchJobs_begin => (fetchJobs_call s).1
  | fetchJobs_settle r => fetchJobs_resume r s
  | fetchKnowledgeBases_begin => (fetchKnowledgeBases_call s).1
  | fetchKnowledgeBases_settle r => fetchKnowledgeBases_resume r s
  | do_clearResult => clearResult s
  | do_clearError => clearError s
  | do_setQuery q => setQuery q s
  end.

Definition run (s : State) (sts : list Step) : State := foldl step s sts.

(** [Promise.all([fetchModels(), fetchJobs(), fetchKnowledgeBases()])], as
    the views' [refresh] issues it: the three calls run to their [await]
    in this order, and the three promises settle in the order [arrival]. *)
Definition refresh_all (arrival : list Step) (s : State) : State :=
  run s ([fetchModels_begin; fetchJobs_begin; fetchKnowledgeBases_begin]
         ++ arrival).

End Query.

(** ** [views/MaterializedTables.vue]: the SQL preview *)

Module MaterializedTables.

(** The [ref]s of the form that [sqlPreview] reads. *)
Record Form := {
  tableName : string;
  selectedDatabase : string;
  selectedTable : string;
  selectedColumns : list string;
  whereClause : string;
  limitRows : option Js.number;
}.

Definition sqlPreview (f : Form) : string :=
  if negb (Js.truthy (tableName f)) || negb (Js.truthy (selectedDatabase f))
     || negb (Js.truthy (selectedTable f))
  then "-- Fill in the form to generate SQL"
  else
    let cols :=
      if bool_decide (0 < length (selectedColumns f))%nat
      then Js.join ", " (selectedColumns f)
      else "*" in
    let sql :=
      "CREATE TABLE mindsdb." +:+ tableName f +:+ " AS" +:+ "
SELECT " +:+ cols +:+ "
FROM " +:+ selectedDatabase f +:+ "." +:+ selectedTable f in
    let sql :=
      if Js.truthy (whereClause f)
      then sql +:+ "
WHERE " +:+ whereClause f
      else sql in
    let sql :=
      match limitRows f with
      | Some n =>
          if Js.truthy_num (Some n)
          then sql +:+ "
LIMIT " +:+ Js.template_num n
          else sql
      | None => sql
      end in
    sql +:+ ";".

End MaterializedTables.

(** ** Concrete data for the examples *)

Module Sample.

Definition network_error : Api.Failure :=
  {| Api.detail := None; Api.message := Some "Network Error" |}.

Definition mysql_db : DataSource.t :=
  {| DataSource.name := "mysql_db"; DataSource.engine := "mysql";
     DataSource.tables := ["orders"] |}.

Definition pg_db : DataSource.t :=
  {| DataSource.name := "pg_db"; DataSource.engine := "postgres";
     DataSource.tables := [] |}.

Definition orders_schema : TableSchema.t :=
  {| TableSchema.table := "orders";
     TableSchema.columns :=
       [{| TableColumn.name := "id"; TableColumn.type := "int";
           TableColumn.nullable := Some "NO";
           TableColumn.key := Some "PRI" |}] |}.

Definition orders_sample : TableData.t :=
  {| TableData.columns := ["id"]; TableData.data := [[Js.Num 1]];
     TableData.total_rows := 1 |}.

(** A comparator for names: the order of [String.le], as -1, 0 or 1. *)
Definition binary_collation (a b : string) : Z :=
  if bool_decide (a = b) then 0
  else if bool_decide (String.le a b) then -1 else 1.

Definition jobs : list Job.t :=
  [{| Job.name := "nightly"; Job.schedule := Some "every day";
      Job.next_run := None |}].

Definition kbs : list KnowledgeBase.t :=
  [{| KnowledgeBase.name := "docs"; KnowledgeBase.model := None |}].

End Sample.

(** ** More of JavaScript: what the views use *)

Module JsArray.

(** [arr.indexOf(x)] on an array of strings: the first index that holds
    [x], or -1. *)
Definition indexOf (x : string) (arr : list string) : Z :=
  match list_find (λ y, y = x) arr with
  | Some (i, _) => Z.of_nat i
  | None => -1
  end.

(** [arr.splice(start, 1)], as the new contents of [arr]: [start] is
    clamped as for [slice], and nothing is removed at the end. *)
Definition splice1 {A : Type} (start : Z) (arr : list A) : list A :=
  delete (Js.slice_from (length arr) start) arr.

End JsArray.

(** ** The datasource store as a transition system

    Like [Query.Step]: the uninterrupted pieces of the actions of
    [useDatasourcesStore].  [fetchTables_settle] also resumes a
    [selectDatasource], whose [await] is on [fetchTables]. *)

Module DatasourcesRun.

Inductive Step :=
| fetchTypes_begin
| fetchTypes_settle (r : Api.Settled (list DataSourceTypeConfig.t))
| fetchDatasources_begin
| fetchDatasources_settle (r : Api.Settled (list DataSource.t))
| createDatasource_begin (name engine : string)
    (parameters : gmap string Js.any)
| createDatasource_settle (r : Api.Settled DataSource.t)
| deleteDatasource_begin (name : string)
| deleteDatasource_settle (name : string) (r : Api.Settled string)
| selectDatasource_begin (datasource : DataSource.t)
| fetchTables_begin (datasourceName : string)
| fetchTables_settle (r : Api.Settled (list string))
| selectTable_begin (tableName : string)
| selectTable_settle (r : Api.Settled (TableSchema.t * TableData.t))
| do_clearError.

Definition step (s : Datasources.State) (st : Step) : Datasources.State :=
  match st with
  | fetchTypes_begin => (Datasources.fetchTypes_call s).1
  | fetchTypes_settle r => Datasources.fetchTypes_resume r s
  | fetchDatasources_begin => (Datasources.fetchDatasources_call s).1
  | fetchDatasources_settle r => Datasources.fetchDatasources_resume r s
  | createDatasource_begin n e p =>
      (Datasources.createDatasource_call n e p s).1
  | createDatasource_settle r => (Datasources.createDatasource_resume r s).2
  | deleteDatasource_begin n => (Datasources.deleteDatasource_call n s).1
  | deleteDatasource_settle n r =>
      (Datasources.deleteDatasource_resume n r s).2
  | selectDatasource_begin d => (Datasources.selectDatasource_call d s).1
  | fetchTables_begin n => (Datasources.fetchTables_call n s).1
  | fetchTables_settle r => Datasources.fetchTables_resume r s
  | selectTable_begin t =>
      match Datasources.selectTable_call t s with
      | Some (s1, _) => s1
      | None => s
      end
  | selectTable_settle r => Datasources.selectTable_resume r s
  | do_clearError => Datasources.clearError s
  end.

Definition run (s : Datasources.State) (sts : list Step)
  : Datasources.State :=
  foldl step s sts.

(** [onMounted] of the data sources view:
    [Promise.all([store.fetchTypes(), store.fetchDatasources()])]; the two
    calls run to their [await] in this order, and the two promises settle
    in the order [arrival]. *)
Definition mount (arrival : list Step) (s : Datasources.State)
  : Datasources.State :=
  run s ([fetchTypes_begin; fetchDatasources_begin] ++ arrival).

End DatasourcesRun.

(** The entries that the steps [sts] of the query store record, in order:
    one for each [executeQuery] whose request the server answered. *)
Module QueryLog.

Definition recorded_by (st : Query.Step) : list Query.HistoryEntry :=
  match st with
  | Query.executeQuery_settle q now (Api.Fulfilled res) =>
      [{| Query.query := q; Query.timestamp := now;
          Query.success := negb (QueryResult.is_error res) |}]
  | _ => []
  end.

Definition recorded (sts : list Query.Step) : list Query.HistoryEntry :=
  sts ≫= recorded_by.

End QueryLog.

(** ** [views/MaterializedTables.vue]: the form *)

Module MaterializedTablesView.
Import MaterializedTables.

Record Column := {
  name : string;
  type : string;
}.

(** The [ref]s of the view: those the preview reads, and the rest. *)
Record View := {
  form : Form;
  creating : bool;
  createSuccess : bool;
  availableTables : list string;
  availableColumns : list Column;
}.

Definition set_tableName (v : string) (f : Form) : Form :=
  {| tableName := v; selectedDatabase := selectedDatabase f;
     selectedTable := selectedTable f; selectedColumns := selectedColumns f;
     whereClause := whereClause f; limitRows := limitRows f |}.

Definition set_selectedTable (v : string) (f : Form) : Form :=
  {| tableName := tableName f; selectedDatabase := selectedDatabase f;
     selectedTable := v; selectedColumns := selectedColumns f;
     whereClause := whereClause f; limitRows := limitRows f |}.

Definition set_selectedColumns (v : list string) (f : Form) : Form :=
  {| tableName := tableName f; selectedDatabase := selectedDatabase f;
     selectedTable := selectedTable f; selectedColumns := v;
     whereClause := whereClause f; limitRows := limitRows f |}.

Definition set_whereClause (v : string) (f : Form) : Form :=
  {| tableName := tableName f; selectedDatabase := selectedDatabase f;
     selectedTable := selectedTable f; selectedColumns := selectedColumns f;
     whereClause := v; limitRows := limitRows f |}.

Definition set_limitRows (v : option Js.number) (f : Form) : Form :=
  {| tableName := tableName f; selectedDatabase := selectedDatabase f;
     selectedTable := selectedTable f; selectedColumns := selectedColumns f;
     whereClause := whereClause f; limitRows := v |}.

Definition set_form (v : Form) (w : View) : View :=
  {| form := v; creating := creating w; createSuccess := createSuccess w;
     availableTables := availableTables w;
     availableColumns := availableColumns w |}.

Definition set_creating (v : bool) (w : View) : View :=
  {| form := form w; creating := v; createSuccess := createSuccess w;
     availableTables := availableTables w;
     availableColumns := availableColumns w |}.

Definition set_createSuccess (v : bool) (w : View) : View :=
  {| form := form w; creating := creating w; createSuccess := v;
     availableTables := availableTables w;
     availableColumns := availableColumns w |}.

Definition set_availableTables (v : list string) (w : View) : View :=
  {| form := form w; creating := creating w;
     createSuccess := createSuccess w; availableTables := v;
     availableColumns := availableColumns w |}.

Definition set_availableColumns (v : list Column) (w : View) : View :=
  {| form := form w; creating := creating w;
     createSuccess := createSuccess w;
     availableTables := availableTables w; availableColumns := v |}.

(** [toggleColumn], on the array [selectedColumns.value]. *)
Definition toggle (columnName : string) (cols : list string) : list string :=
  let idx := JsArray.indexOf columnName cols in
  if idx >? -1 then JsArray.splice1 idx cols
  else Js.push columnName cols.

Definition toggleColumn (columnName : string) (w : View) : View :=
  set_form
    (set_selectedColumns (toggle columnName (selectedColumns (form w)))
       (form w)) w.

Definition selectAllColumns (w : View) : View :=
  if bool_decide (length (selectedColumns (form w))
                  = length (availableColumns w))
  then set_form (set_selectedColumns [] (form w)) w
  else set_form (set_selectedColumns (name <$> availableColumns w) (form w)) w.

(** [onDatabaseChange]: up to the [await] on [fetchTables], which only
    happens when a database is chosen. *)
Definition onDatabaseChange_call (w : View) (d : Datasources.State)
  : View * Datasources.State * list Api.Request :=
  let w1 :=
    set_availableColumns []
      (set_form (set_selectedColumns [] (set_selectedTable "" (form w))) w) in
  if Js.truthy (selectedDatabase (form w1)) then
    let '(d1, reqs) :=
      Datasources.fetchTables_call (selectedDatabase (form w1)) d in
    (w1, d1, reqs)
  else (w1, d, []).

Definition onDatabaseChange_resume (r : Api.Settled (list string))
    (w : View) (d : Datasources.State) : View * Datasources.State :=
  let d1 := Datasources.fetchTables_resume r d in
  (set_availableTables (Datasources.tables d1) w, d1).

(** [onTableChange]: up to the [await] on the schema, which only happens
    when a database and a table are chosen.  The request is made by the
    API client directly, not through the store. *)
Definition onTableChange_call (w : View) : View * list Api.Request :=
  let w1 := set_form (set_selectedColumns [] (form w)) w in
  if Js.truthy (selectedDatabase (form w1))
     && Js.truthy (selectedTable (form w1))
  then
    (w1, [Api.getTableSchema (selectedDatabase (form w1))
            (selectedTable (form w1))])
  else (w1, []).

(** There is no [catch] around the [await]: a rejection is the outcome of
    [onTableChange] itself, and the assignment after it does not run. *)
Definition onTableChange_resume (r : Api.Settled TableSchema.t) (w : View)
  : Api.Settled View :=
  match r with
  | Api.Fulfilled schema =>
      Api.Fulfilled
        (set_availableColumns
           ((λ c, {| name := TableColumn.name c;
                     type := TableColumn.type c |})
              <$> TableSchema.columns schema) w)
  | Api.Rejected e => Api.Rejected e
  end.

(** [createTable]: [None] when the guard returns.  The two stores are
    separate; only the query store is touched. *)
Definition createTable_call (w : View) (q : Query.State)
  : option (View * Query.State * list Api.Request) :=
  let f := form w in
  if negb (Js.truthy (tableName f)) || negb (Js.truthy (selectedDatabase f))
     || negb (Js.truthy (selectedTable f))
  then None
  else
    let w1 := set_creating true w in
    let q1 := Query.clearError q in
    let '(q2, reqs) :=
      Query.createMaterializedTable_call (tableName f) (selectedDatabase f)
        (selectedTable f)
        (if bool_decide (0 < length (selectedColumns f))%nat
         then selectedColumns f else ["*"])
        (if Js.truthy (whereClause f) then Some (whereClause f) else None)
        (limitRows f) q1 in
    Some (w1, q2, reqs).

Definition createTable_resume (r : Api.Settled string) (w : View)
    (q : Query.State) : View * Query.State :=
  let '(success, q1) := Query.createMaterializedTable_resume r q in
  let w1 := set_creating false w in
  (if success then set_createSuccess true w1 else w1, q1).

(** The callback that [setTimeout] runs 2000 ms after a success. *)
Definition createTable_timeout (w : View) : View :=
  set_form
    (set_limitRows None
       (set_whereClause ""
          (set_selectedColumns []
             (set_selectedTable "" (set_tableName "" (form w))))))
    (set_createSuccess false w).

End MaterializedTablesView.

(** ** The data sources view: the modal that adds a connection *)

Module DataSourcesView.

Record Modal := {
  showAddModal : bool;
  selectedType : option DataSourceTypeConfig.t;
  formData : gmap string Js.any;
  connectionName : string;
  creating : bool;
  createSuccess : bool;
}.

Definition set_formData (v : gmap string Js.any) (m : Modal) : Modal :=
  {| showAddModal := showAddModal m; selectedType := selectedType m;
     formData := v; connectionName := connectionName m;
     creating := creating m; createSuccess := createSuccess m |}.

Definition set_selectedType (v : option DataSourceTypeConfig.t) (m : Modal)
  : Modal :=
  {| showAddModal := showAddModal m; selectedType := v;
     formData := formData m; connectionName := connectionName m;
     creating := creating m; createSuccess := createSuccess m |}.

Definition set_creating (v : bool) (m : Modal) : Modal :=
  {| showAddModal := showAddModal m; selectedType := selectedType m;
     formData := formData m; connectionName := connectionName m;
     creating := v; createSuccess := createSuccess m |}.

Definition set_createSuccess (v : bool) (m : Modal) : Modal :=
  {| showAddModal := showAddModal m; selectedType := selectedType m;
     formData := formData m; connectionName := connectionName m;
     creating := creating m; createSuccess := v |}.

Definition openAddModal (m : Modal) : Modal :=
  {| showAddModal := true; selectedType := None; formData := ∅;
     connectionName := ""; creating := creating m; createSuccess := false |}.

Definition closeModal (m : Modal) : Modal :=
  {| showAddModal := false; selectedType := None; formData := ∅;
     connectionName := ""; creating := creating m; createSuccess := false |}.

(** The body of the [forEach] of [selectType]: a field with a default
    puts it under its name (an ordinary property name: the form data is a
    plain object used as a map). *)
Definition put_default (m : Modal) (field : DataSourceField.t) : Modal :=
  match DataSourceField.default field with
  | Some d => set_formData (<[DataSourceField.name field := d]> (formData m)) m
  | None => m
  end.

Definition selectType (type : DataSourceTypeConfig.t) (m : Modal) : Modal :=
  foldl put_default (set_formData ∅ (set_selectedType (Some type) m))
    (DataSourceTypeConfig.fields type).

(** [createConnection]: [None] when the guard returns. *)
Definition createConnection_call (m : Modal) (s : Datasources.State)
  : option (Modal * Datasources.State * list Api.Request) :=
  match selectedType m with
  | None => None
  | Some ty =>
      if negb (Js.truthy (connectionName m)) then None
      else
        let m1 := set_creating true m in
        let s1 := Datasources.clearError s in
        let '(s2, reqs) :=
          Datasources.createDatasource_call (connectionName m)
            (DataSourceTypeConfig.type ty) (formData m) s1 in
        Some (m1, s2, reqs)
  end.

Definition createConnection_resume (r : Api.Settled DataSource.t)
    (m : Modal) (s : Datasources.State) : Modal * Datasources.State :=
  let '(success, s1) := Datasources.createDatasource_resume r s in
  let m1 := set_creating false m in
  (if success then set_createSuccess true m1 else m1, s1).

(** The callback that [setTimeout] runs 1500 ms after a success. *)
Definition createConnection_timeout (m : Modal) : Modal := closeModal m.

End DataSourcesView.

(** ** More concrete data for the examples *)

Module SampleViews.

Definition orders_form : MaterializedTables.Form :=
  {| MaterializedTables.tableName := "cached_data";
     MaterializedTables.selectedDatabase := "mysql_db";
     MaterializedTables.selectedTable := "orders";
     MaterializedTables.selectedColumns := [];
     MaterializedTables.whereClause := "";
     MaterializedTables.limitRows := None |}.

Definition orders_view : MaterializedTablesView.View :=
  {| MaterializedTablesView.form := orders_form;
     MaterializedTablesView.creating := false;
     MaterializedTablesView.createSuccess := false;
     MaterializedTablesView.availableTables := ["orders"];
     MaterializedTablesView.availableColumns :=
       [{| MaterializedTablesView.name := "id";
           MaterializedTablesView.type := "int" |};
        {| MaterializedTablesView.name := "amount";
           MaterializedTablesView.type := "decimal" |}] |}.

Definition host_field : DataSourceField.t :=
  {| DataSourceField.name := "host"; DataSourceField.label := "Host";
     DataSourceField.type := DataSourceField.text;
     DataSourceField.required := true;
     DataSourceField.default := None |}.

Definition port_field : DataSourceField.t :=
  {| DataSourceField.name := "port"; DataSourceField.label := "Port";
     DataSourceField.type := DataSourceField.number;
     DataSourceField.required := true;
     DataSourceField.default := Some (Js.Num 3306) |}.

Definition mysql_type : DataSourceTypeConfig.t :=
  {| DataSourceTypeConfig.type := "mysql";
     DataSourceTypeConfig.display_name := "MySQL";
     DataSourceTypeConfig.icon := "mysql";
     DataSourceTypeConfig.fields := [host_field; port_field] |}.

Definition closed_modal : DataSourcesView.Modal :=
  {| DataSourcesView.showAddModal := false;
     DataSourcesView.selectedType := None;
     DataSourcesView.formData := ∅;
     DataSourcesView.connectionName := "";
     DataSourcesView.creating := false;
     DataSourcesView.createSuccess := false |}.

(** The modal after the type was picked and a name typed. *)
Definition filled_modal : DataSourcesView.Modal :=
  {| DataSourcesView.showAddModal := true;
     DataSourcesView.selectedType := Some mysql_type;
     DataSourcesView.formData := {[ "port" := Js.Num 3306 ]};
     DataSourcesView.connectionName := "shop";
     DataSourcesView.creating := false;
     DataSourcesView.createSuccess := false |}.

End SampleViews.

(** ** [api/client.ts]: where each call goes *)

Module ApiUrl.
Import Stdlib.Strings.Ascii.

Inductive Method := GET | POST | DELETE.

(** The method and the path, relative to the base URL, that each call of
    [datasourcesApi] and [queryApi] hands to axios.  Names go into the
    template literals as they are. *)
Definition route (r : Api.Request) : Method * string :=
  match r with
  | Api.getTypes => (GET, "/datasources/types")
  | Api.list => (GET, "/datasources")
  | Api.create _ _ _ => (POST, "/datasources")
  | Api.delete name => (DELETE, "/datasources/" +:+ name)
  | Api.getTables name => (GET, "/datasources/" +:+ name +:+ "/tables")
  | Api.getTableSchema name table =>
      (GET, "/datasources/" +:+ name +:+ "/tables/" +:+ table +:+ "/schema")
  | Api.getSampleData name table _ =>
      (GET, "/datasources/" +:+ name +:+ "/tables/" +:+ table +:+ "/sample")
  | Api.testConnection name => (POST, "/datasources/" +:+ name +:+ "/test")
  | Api.execute _ => (POST, "/query")
  | Api.getStatus => (GET, "/query/status")
  | Api.createMaterializedTable _ => (POST, "/query/materialized-table")
  | Api.getModels => (GET, "/query/models")
  | Api.getJobs => (GET, "/query/jobs")
  | Api.getKnowledgeBases => (GET, "/query/knowledge-bases")
  end.

(** What the call sends besides the route: the body, or the [limit]
    parameter; forgotten here. *)
Definition addressed (r : Api.Request) : Api.Request :=
  match r with
  | Api.create _ _ _ => Api.create "" "" ∅
  | Api.getSampleData name table _ => Api.getSampleData name table 0
  | Api.execute _ => Api.execute ""
  | Api.createMaterializedTable _ =>
      Api.createMaterializedTable
        {| MaterializedTableRequest.table_name := "";
           MaterializedTableRequest.source_database := "";
           MaterializedTableRequest.source_table := "";
           MaterializedTableRequest.columns := None;
           MaterializedTableRequest.where_clause := None;
           MaterializedTableRequest.limit := None |}
  | _ => r
  end.

(** No [/] in the string. *)
Fixpoint slash_free (s : string) : bool :=
  match s with
  | EmptyString => true
  | String c s' => negb (Ascii.eqb c "/"%char) && slash_free s'
  end.

(** The datasource and table names that the call puts in its path have no
    [/] in them. *)
Definition names_slash_free (r : Api.Request) : bool :=
  match r with
  | Api.delete name | Api.getTables name | Api.testConnection name =>
      slash_free name
  | Api.getTableSchema name table | Api.getSampleData name table _ =>
      slash_free name && slash_free table
  | _ => true
  end.

End ApiUrl.

(** * Properties *)

(** ** JavaScript helpers *)

Lemma slice_from_last (len : nat) (start : Z) :
  start < 0 → Js.slice_from len start = (len - Z.to_nat (- start))%nat.
Proof.
  intros Hk. unfold Js.slice_from.
  destruct (Z.ltb_spec start 0); lia.
Qed.

Lemma or_fallback (a : option string) (fallback : string) :
  fallback ≠ "" →
  ∃ msg, Js.or a (Some fallback) = Some msg ∧ msg ≠ "".
Proof.
  intros Hf. unfold Js.or, Js.truthy_opt, Js.truthy.
  destruct a as [s|]; [|by eauto].
  destruct (String.eqb_spec s ""); simpl; eauto.
Qed.

Lemma or_truthy (a b : option string) msg :
  a = Some msg → msg ≠ "" → Js.or a b = a.
Proof.
  intros -> Hm. unfold Js.or, Js.truthy_opt, Js.truthy.
  by destruct (String.eqb_spec msg "").
Qed.

Section ArrayHeap.
Context {A : Type}.
Implicit Types (h : list (list A)) (v : list A).

Lemma deref_lookup h r v : h !! r = Some v → Js.deref h r = v.
Proof. unfold Js.deref. by intros ->. Qed.

Lemma deref_fresh h v : Js.deref (h ++ [v]) (length h) = v.
Proof.
  unfold Js.deref. rewrite lookup_app_r by lia.
  by rewrite Nat.sub_diag.
Qed.

Lemma insert_fresh h v w : <[length h := w]> (h ++ [v]) = h ++ [w].
Proof. rewrite insert_app_r_alt by lia. by rewrite Nat.sub_diag. Qed.

(** [a.slice(start).reverse()] with a negative [start] allocates the
    reversed suffix and leaves every array that was there as it was. *)
Lemma slice_reverse_heap h a v (start : Z) :
  start < 0 → h !! a = Some v →
  (let '(r, h1) := Js.slice start a h in Js.reverse_in_place r h1)
  = (length h, h ++ [reverse (drop (length v - Z.to_nat (- start)) v)]).
Proof.
  intros Hk Ha. unfold Js.slice, Js.alloc, Js.reverse_in_place.
  rewrite (deref_lookup _ _ _ Ha), slice_from_last by done.
  by rewrite deref_fresh, insert_fresh.
Qed.

(** [[...a].sort(cmp)] allocates the sorted copy and leaves every array
    that was there as it was. *)
Lemma spread_sort_heap h a v (cmp : A → A → Z) :
  h !! a = Some v →
  (let '(r, h1) := Js.spread a h in Js.sort_in_place cmp r h1)
  = (length h, h ++ [Js.stable_sort cmp v]).
Proof.
  intros Ha. unfold Js.spread, Js.alloc, Js.sort_in_place.
  rewrite (deref_lookup _ _ _ Ha).
  by rewrite deref_fresh, insert_fresh.
Qed.

End ArrayHeap.

(** The stable sort rearranges its input, and sorts it when the comparator
    is total and transitive; what is sorted already stays as it is. *)
Section StableSort.
Context {A : Type} (cmp : A → A → Z).

Lemma insert_stable_Permutation (x : A) (l : list A) :
  Js.insert_stable cmp x l ≡ₚ x :: l.
Proof.
  induction l as [|y l IH]; simpl; [done|].
  case_decide; [done|]. rewrite IH. apply Permutation_swap.
Qed.

Lemma stable_sort_Permutation (l : list A) : Js.stable_sort cmp l ≡ₚ l.
Proof.
  induction l as [|x l IH]; simpl; [done|].
  by rewrite insert_stable_Permutation, IH.
Qed.

Lemma insert_stable_sorted (x : A) (l : list A) :
  Total (Js.before cmp) → Transitive (Js.before cmp) →
  StronglySorted (Js.before cmp) l →
  StronglySorted (Js.before cmp) (Js.insert_stable cmp x l).
Proof.
  intros Htotal Htrans. induction l as [|y l IH]; intros Hl; simpl.
  - repeat constructor.
  - apply StronglySorted_inv in Hl as [Hl Hy]. case_decide as Hxy.
    + constructor; [by constructor|]. constructor; [done|].
      eapply Forall_impl; [exact Hy|]. intros z Hz. by etrans.
    + constructor; [by apply IH|].
      rewrite insert_stable_Permutation. constructor; [|done].
      by destruct (Htotal x y).
Qed.

Lemma stable_sort_sorted (l : list A) :
  Total (Js.before cmp) → Transitive (Js.before cmp) →
  StronglySorted (Js.before cmp) (Js.stable_sort cmp l).
Proof.
  intros Htotal Htrans. induction l as [|x l IH]; simpl.
  - constructor.
  - by apply insert_stable_sorted.
Qed.

Lemma stable_sort_of_sorted (l : list A) :
  StronglySorted (Js.before cmp) l → Js.stable_sort cmp l = l.
Proof.
  induction l as [|x l IH]; intros Hl; simpl; [done|].
  apply StronglySorted_inv in Hl as [Hl Hx]. rewrite IH by done.
  destruct l as [|y l]; simpl; [done|].
  apply Forall_cons in Hx as [Hxy _]. by rewrite decide_True.
Qed.

End StableSort.

(** ** The query store *)

Lemma query_set_queryHistory_id (s : Query.State) :
  Query.set_queryHistory (Query.queryHistory s) s = s.
Proof. by destruct s. Qed.

Lemma lastQueries_unfold (s : Query.State) :
  Query.lastQueries s
  = (reverse (drop (length (Query.queryHistory s) - 10) (Query.queryHistory s)),
     s).
Proof.
  unfold Query.lastQueries, Query.lastQueries_eval.
  rewrite (slice_reverse_heap [Query.queryHistory s] 0%nat
             (Query.queryHistory s) (-10)) by done.
  change (Z.to_nat (- -10)) with 10%nat. simpl length. rewrite deref_fresh.
  change (Js.deref _ 0%nat) with (Query.queryHistory s).
  by rewrite query_set_queryHistory_id.
Qed.

Lemma step_history_prefix (s : Query.State) (st : Query.Step) :
  Query.queryHistory s `prefix_of` Query.queryHistory (Query.step s st).
Proof.
  destruct st as [|r| |q now r| | r| |r| |r| |r| | |]; simpl;
    try destruct r as [res|e]; simpl; try done.
  - destruct (QueryResult.is_error res); simpl; by apply prefix_app_r.
Qed.

Lemma run_history_prefix (sts : list Query.Step) (s : Query.State) :
  Query.queryHistory s `prefix_of` Query.queryHistory (Query.run s sts).
Proof.
  revert s. induction sts as [|st sts IH]; intros s; [done|].
  etrans; [apply (step_history_prefix s st)|apply IH].
Qed.

(** C7. The [lastQueries] getter of a log of length [N] has [min N 10]
    entries, which are the last [min N 10] entries of the log in reverse
    order; evaluating it leaves the store, and so the log, as it was; and
    no interleaving of the actions of the store ever removes or reorders
    what the log holds: the log before is a prefix of the log after. *)
Theorem lastQueries_recent_view (s : Query.State) :
  let log := Query.queryHistory s in
  let N := length log in
  (Query.lastQueries s).2 = s
  ∧ length (Query.lastQueries s).1 = Nat.min N 10
  ∧ (Query.lastQueries s).1 = reverse (drop (N - Nat.min N 10) log)
  ∧ (∀ sts, log `prefix_of` Query.queryHistory (Query.run s sts)).
Proof.
  intros log N. rewrite lastQueries_unfold. simpl. split_and!.
  - done.
  - rewrite length_reverse, length_drop. fold log N. lia.
  - fold log N. by replace (N - N `min` 10)%nat with (N - 10)%nat by lia.
  - intros sts. apply run_history_prefix.
Qed.

Lemma detail_or_message_nonempty (e : Api.Failure) (fallback : string) :
  fallback ≠ "" →
  ∃ msg, Api.detail_or_message e fallback = Some msg ∧ msg ≠ "".
Proof. intros Hf. unfold Api.detail_or_message. by apply or_fallback. Qed.

(** What [executeQuery(q)] does to the log. A run whose request the server
    answers appends exactly one entry to [queryHistory], carrying [q] and
    [success = (result kind is not error)], also for a result of kind
    error; a run whose request fails in transport appends nothing: the
    [catch] synthesizes its error result without the [push]. *)
Theorem executeQuery_history (q : string) (now : Js.number)
    (r : Api.Settled QueryResult.t) (s : Query.State) :
  Query.queryHistory (Query.executeQuery q now r s).2
  = match r with
    | Api.Fulfilled res =>
        Query.queryHistory s
        ++ [{| Query.query := q; Query.timestamp := now;
               Query.success := negb (QueryResult.is_error res) |}]
    | Api.Rejected _ => Query.queryHistory s
    end.
Proof.
  destruct r as [res|e]; simpl; [|done].
  by destruct (QueryResult.is_error res).
Qed.

(** C1. The code at the failing input: the request of
    [executeQuery("SELECT 1")] fails in transport on a fresh store; the
    error-kind result is synthesized, and the log, which C1 says has one
    entry more, is still empty. *)
Lemma executeQuery_transport_failure_appends_nothing :
  let run :=
    Query.executeQuery "SELECT 1" 0 (Api.Rejected Sample.network_error)
      Query.init in
  QueryResult.type run.1 = QueryResult.error_kind
  ∧ Query.queryHistory run.2 = []
  ∧ length (Query.queryHistory run.2)
    ≠ S (length (Query.queryHistory Query.init)).
Proof. by vm_compute. Qed.

(** C4. When the request of [executeQuery] fails in transport, the action
    still returns a result: of kind error, with no columns, no rows, row
    count 0 and the failure message, which is never empty; the store
    holds that same result, its [error] field holds the same message, and
    the busy flag is down. *)
Theorem executeQuery_transport_failure (q : string) (now : Js.number)
    (e : Api.Failure) (s : Query.State) :
  let run := Query.executeQuery q now (Api.Rejected e) s in
  let msg := Api.detail_or_message e "Failed to execute query" in
  run.1 = {| QueryResult.type := QueryResult.error_kind;
             QueryResult.columns := [];
             QueryResult.data := [];
             QueryResult.row_count := 0;
             QueryResult.error := msg;
             QueryResult.execution_time := None |}
  ∧ (∃ m, msg = Some m ∧ m ≠ "")
  ∧ Query.queryResult run.2 = Some run.1
  ∧ Query.error run.2 = msg
  ∧ Query.loading run.2 = false.
Proof.
  intros run msg.
  destruct (detail_or_message_nonempty e "Failed to execute query")
    as (m & Hm & Hne); [done|].
  subst run; simpl. fold msg. rewrite (or_truthy msg None m Hm Hne).
  split_and!; eauto.
Qed.

Lemma Permutation_length_3 {A : Type} (a b c : A) (l : list A) :
  l ≡ₚ [a; b; c] →
  l = [a; b; c] ∨ l = [a; c; b] ∨ l = [b; a; c]
  ∨ l = [b; c; a] ∨ l = [c; a; b] ∨ l = [c; b; a].
Proof.
  intros Hp.
  destruct l as [|x [|y [|z [|? ?]]]];
    try (apply Permutation_length in Hp; simpl in Hp; lia).
  assert (Hx : x ∈ [a; b; c]) by (rewrite <- Hp; left).
  rewrite !elem_of_cons, elem_of_nil in Hx.
  destruct Hx as [->|[->|[->|[]]]].
  - apply Permutation_cons_inv, Permutation_length_2 in Hp.
    destruct Hp as [[-> ->]|[-> ->]]; auto.
  - assert (Hyz : [y; z] ≡ₚ [a; c]).
    { apply (Permutation_cons_inv (a := b)). rewrite Hp. constructor. }
    apply Permutation_length_2 in Hyz.
    destruct Hyz as [[-> ->]|[-> ->]]; auto 6.
  - assert (Hyz : [y; z] ≡ₚ [a; b]).
    { apply (Permutation_cons_inv (a := c)). rewrite Hp.
      symmetry. apply (Permutation_cons_append [a; b] c). }
    apply Permutation_length_2 in Hyz.
    destruct Hyz as [[-> ->]|[-> ->]]; auto 7.
Qed.

(** C8. [fetchModels], [fetchJobs] and [fetchKnowledgeBases] issued
    together: in whatever order the three requests settle, each catalog
    ends as the list its own request fetched when that request succeeded,
    and as it was when that request failed, whatever became of the other
    two; nothing else of the store changes but [error], and [error] does too
    only when one of the three failed. *)
Theorem refresh_catalogs_independent
    (rm : Api.Settled (list Model.t)) (rj : Api.Settled (list Job.t))
    (rk : Api.Settled (list KnowledgeBase.t))
    (arrival : list Query.Step) (s : Query.State) :
  arrival ≡ₚ [Query.fetchModels_settle rm; Query.fetchJobs_settle rj;
              Query.fetchKnowledgeBases_settle rk] →
  let s' := Query.refresh_all arrival s in
  Query.models s'
    = match rm with Api.Fulfilled ms => ms | _ => Query.models s end
  ∧ Query.jobs s'
    = match rj with Api.Fulfilled js => js | _ => Query.jobs s end
  ∧ Query.knowledgeBases s'
    = match rk with
      | Api.Fulfilled kbs => kbs
      | _ => Query.knowledgeBases s
      end
  ∧ (Query.currentQuery s', Query.queryResult s', Query.queryHistory s',
     Query.status s', Query.loading s')
    = (Query.currentQuery s, Query.queryResult s, Query.queryHistory s,
       Query.status s, Query.loading s)
  ∧ (Query.error s' ≠ Query.error s →
     (∃ e, rm = Api.Rejected e) ∨ (∃ e, rj = Api.Rejected e)
     ∨ (∃ e, rk = Api.Rejected e)).
Proof.
  intros Hp s'. subst s'.
  apply Permutation_length_3 in Hp.
  destruct Hp as [->|[->|[->|[->|[->| ->]]]]];
    destruct rm, rj, rk; simpl; split_and!; try done; eauto.
Qed.

Lemma refresh_catalogs_independent_witness :
  let s' :=
    Query.refresh_all
      [Query.fetchKnowledgeBases_settle (Api.Fulfilled Sample.kbs);
       Query.fetchModels_settle (Api.Rejected Sample.network_error);
       Query.fetchJobs_settle (Api.Fulfilled Sample.jobs)]
      Query.init in
  Query.jobs s' = Sample.jobs ∧ Query.knowledgeBases s' = Sample.kbs
  ∧ Query.models s' = [].
Proof.
  intros s'.
  destruct (refresh_catalogs_independent
              (Api.Rejected Sample.network_error)
              (Api.Fulfilled Sample.jobs) (Api.Fulfilled Sample.kbs)
              [Query.fetchKnowledgeBases_settle (Api.Fulfilled Sample.kbs);
               Query.fetchModels_settle (Api.Rejected Sample.network_error);
               Query.fetchJobs_settle (Api.Fulfilled Sample.jobs)]
              Query.init) as (Hm & Hj & Hk & _).
  - apply Permutation_cons_append.
  - split_and!; [exact Hj | exact Hk | exact Hm].
Defined.

(** ** The datasource store *)

Lemma datasources_set_datasources_id (s : Datasources.State) :
  Datasources.set_datasources (Datasources.datasources s) s = s.
Proof. by destruct s. Qed.

Lemma sortedDatasources_unfold (cmp : string → string → Z)
    (s : Datasources.State) :
  Datasources.sortedDatasources cmp s
  = (Js.stable_sort (Datasources.by_name cmp)
       (Datasources.datasources s), s).
Proof.
  unfold Datasources.sortedDatasources, Datasources.sortedDatasources_eval.
  rewrite (spread_sort_heap [Datasources.datasources s] 0%nat
             (Datasources.datasources s)) by done.
  simpl length. rewrite deref_fresh.
  change (Js.deref _ 0%nat) with (Datasources.datasources s).
  by rewrite datasources_set_datasources_id.
Qed.

(** The comparator of the examples orders names the way a collation is
    expected to: any two names are comparable, and the order is transitive. *)
Lemma binary_collation_total (a b : string) :
  Sample.binary_collation a b ≤ 0 ∨ Sample.binary_collation b a ≤ 0.
Proof.
  unfold Sample.binary_collation.
  destruct (String.le_total a b); repeat case_bool_decide; simplify_eq; lia.
Qed.

Lemma binary_collation_le (a b : string) :
  Sample.binary_collation a b ≤ 0 ↔ String.le a b.
Proof.
  unfold Sample.binary_collation.
  repeat case_bool_decide; simplify_eq; split; try done; try lia.
Qed.

Lemma binary_collation_trans (a b c : string) :
  Sample.binary_collation a b ≤ 0 → Sample.binary_collation b c ≤ 0 →
  Sample.binary_collation a c ≤ 0.
Proof. rewrite !binary_collation_le. by etrans. Qed.

Section SortedDatasources.
Variable localeCompare : string → string → Z.
Hypothesis localeCompare_total :
  ∀ a b, localeCompare a b ≤ 0 ∨ localeCompare b a ≤ 0.
Hypothesis localeCompare_trans :
  ∀ a b c, localeCompare a b ≤ 0 → localeCompare b c ≤ 0 →
           localeCompare a c ≤ 0.

(** C10. With [localeCompare] a collation (total and transitive), the
    [sortedDatasources] getter returns a rearrangement of the catalog in
    which every entry stands before all entries whose name the collation
    puts after its own, and evaluating it leaves the store, the catalog
    included, as it was. *)
Theorem sortedDatasources_sorted_copy (s : Datasources.State) :
  let sorted := (Datasources.sortedDatasources localeCompare s).1 in
  sorted ≡ₚ Datasources.datasources s
  ∧ StronglySorted
      (λ a b, localeCompare (DataSource.name a) (DataSource.name b) ≤ 0)
      sorted
  ∧ (Datasources.sortedDatasources localeCompare s).2 = s.
Proof.
  rewrite sortedDatasources_unfold. simpl. split_and!.
  - apply stable_sort_Permutation.
  - apply (stable_sort_sorted (Datasources.by_name localeCompare)).
    + intros a b. apply localeCompare_total.
    + intros a b c. apply localeCompare_trans.
  - done.
Qed.

End SortedDatasources.

Lemma sortedDatasources_sorted_copy_witness :
  let s := Datasources.set_datasources [Sample.pg_db; Sample.mysql_db]
             Datasources.init in
  (Datasources.sortedDatasources Sample.binary_collation s).1
    ≡ₚ [Sample.pg_db; Sample.mysql_db]
  ∧ (Datasources.sortedDatasources Sample.binary_collation s).2 = s.
Proof.
  intros s.
  destruct (sortedDatasources_sorted_copy Sample.binary_collation
              binary_collation_total binary_collation_trans s)
    as (Hperm & _ & Hsame).
  split; [exact Hperm | exact Hsame].
Defined.

(** C9. With no datasource selected, [selectTable] returns at its guard:
    no request is issued, and the store it leaves is the store it found,
    so none of [selectedTable], [tableSchema], [tableData], [loading] and
    [error] has changed, and no other state was observable meanwhile. *)
Theorem selectTable_without_selection (tableName : string)
    (schema_first : bool) (schema : Api.Settled TableSchema.t)
    (sample : Api.Settled TableData.t) (s : Datasources.State) :
  Datasources.selectedDatasource s = None →
  Datasources.selectTable_call tableName s = None
  ∧ Datasources.selectTable tableName schema_first schema sample s = s
  ∧ Datasources.selectTable_observable tableName schema_first schema sample s
    = [s].
Proof.
  intros Hnone.
  unfold Datasources.selectTable, Datasources.selectTable_observable,
    Datasources.selectTable_call.
  by rewrite Hnone.
Qed.

Lemma selectTable_without_selection_witness :
  Datasources.selectTable "orders" true
    (Api.Fulfilled Sample.orders_schema) (Api.Fulfilled Sample.orders_sample)
    Datasources.init
  = Datasources.init.
Proof.
  apply (selectTable_without_selection "orders" true
           (Api.Fulfilled Sample.orders_schema)
           (Api.Fulfilled Sample.orders_sample) Datasources.init).
  reflexivity.
Defined.

(** C3. With a datasource selected, [selectTable] asks for the schema and
    for a sample of 10 rows; when both requests succeed the store ends
    with both the fetched schema and the fetched sample, and when either
    fails it ends with [tableSchema] and [tableData] as they were, the
    failure path having set [error] and nothing else (the busy flag goes
    down on both paths); and in every state observable from the call on,
    either both fields are as they were or both hold what was fetched. *)
Theorem selectTable_both_or_neither (tableName : string)
    (schema_first : bool) (schema : Api.Settled TableSchema.t)
    (sample : Api.Settled TableData.t) (s : Datasources.State)
    (d : DataSource.t) :
  Datasources.selectedDatasource s = Some d →
  let final :=
    Datasources.selectTable tableName schema_first schema sample s in
  (∃ pending,
     Datasources.selectTable_call tableName s
     = Some (pending,
             [Api.getTableSchema (DataSource.name d) tableName;
              Api.getSampleData (DataSource.name d) tableName 10])
     ∧ match schema, sample with
       | Api.Fulfilled sc, Api.Fulfilled da =>
           Datasources.tableSchema final = Some sc
           ∧ Datasources.tableData final = Some da
       | _, _ =>
           Datasources.tableSchema final = Datasources.tableSchema s
           ∧ Datasources.tableData final = Datasources.tableData s
           ∧ ∃ e,
               Api.all2 schema_first schema sample = Api.Rejected e
               ∧ final
                 = Datasources.set_loading false
                     (Datasources.set_error
                        (Api.detail_or_message e "Failed to fetch table info")
                        pending)
       end)
  ∧ Forall
      (λ st,
         (Datasources.tableSchema st = Datasources.tableSchema s
          ∧ Datasources.tableData st = Datasources.tableData s)
         ∨ (∃ sc da,
              schema = Api.Fulfilled sc ∧ sample = Api.Fulfilled da
              ∧ Datasources.tableSchema st = Some sc
              ∧ Datasources.tableData st = Some da))
      (Datasources.selectTable_observable tableName schema_first schema
         sample s).
Proof.
  intros Hsel final. subst final.
  unfold Datasources.selectTable, Datasources.selectTable_observable,
    Datasources.selectTable_call.
  rewrite Hsel. split.
  - eexists; split; [reflexivity|].
    destruct schema as [sc|e1], sample as [da|e2]; simpl; eauto.
  - apply Forall_cons; split; [by left|].
    apply Forall_singleton.
    destruct schema as [sc|e1], sample as [da|e2]; simpl; eauto 10.
Qed.

Lemma selectTable_both_or_neither_witness :
  let s := Datasources.set_selectedDatasource (Some Sample.mysql_db)
             Datasources.init in
  let final :=
    Datasources.selectTable "orders" true
      (Api.Fulfilled Sample.orders_schema)
      (Api.Rejected Sample.network_error) s in
  Datasources.tableSchema final = None ∧ Datasources.tableData final = None.
Proof.
  intros s final.
  destruct (selectTable_both_or_neither "orders" true
              (Api.Fulfilled Sample.orders_schema)
              (Api.Rejected Sample.network_error) s Sample.mysql_db)
    as [(pending & _ & Hschema & Hdata & _) _].
  - reflexivity.
  - split; [exact Hschema | exact Hdata].
Defined.

(** C5, as the code has it. A [deleteDatasource(name)] that the server
    acknowledges returns [true] and leaves a catalog that is the old one
    without the entries named [name], so none of that name remains; if the
    selected datasource bore that name, the selection, the table list, the
    selected table, the schema and the sample are cleared by the same
    uninterrupted step that removes the entry (while the request is in
    flight the catalog and the selection are still as they were); hence,
    if a schema or a sample was held only for a selected datasource of the
    catalog before, the same is true of the state the deletion leaves.  A
    [selectTable] that is in flight is not cancelled: when it settles after
    the deletion it stores its schema and its sample and leaves selection
    and catalog as the deletion left them.  A [deleteDatasource] that
    fails returns [false] and leaves the catalog as it was. *)
Theorem deleteDatasource_clears_selection (name : string)
    (r : Api.Settled string) (s : Datasources.State) :
  let pending := (Datasources.deleteDatasource_call name s).1 in
  let run := Datasources.deleteDatasource name r s in
  (Datasources.datasources pending = Datasources.datasources s
   ∧ Datasources.selectedDatasource pending = Datasources.selectedDatasource s
   ∧ run = Datasources.deleteDatasource_resume name r pending)
  ∧ match r with
    | Api.Fulfilled _ =>
        run.1 = true
        ∧ Datasources.datasources run.2
          = filter (λ ds, DataSource.name ds ≠ name)
              (Datasources.datasources s)
        ∧ (∀ ds, ds ∈ Datasources.datasources run.2 →
                 DataSource.name ds ≠ name)
        ∧ (Datasources.selected_is name s = true →
           Datasources.selectedDatasource run.2 = None
           ∧ Datasources.tables run.2 = []
           ∧ Datasources.selectedTable run.2 = None
           ∧ Datasources.tableSchema run.2 = None
           ∧ Datasources.tableData run.2 = None)
        ∧ (Datasources.derived_state_in_catalog s →
           Datasources.derived_state_in_catalog run.2)
        ∧ (∀ sc da,
             let late :=
               Datasources.selectTable_resume (Api.Fulfilled (sc, da))
                 run.2 in
             Datasources.tableSchema late = Some sc
             ∧ Datasources.tableData late = Some da
             ∧ Datasources.selectedDatasource late
               = Datasources.selectedDatasource run.2
             ∧ Datasources.datasources late = Datasources.datasources run.2)
    | Api.Rejected _ =>
        run.1 = false
        ∧ Datasources.datasources run.2 = Datasources.datasources s
    end.
Proof.
  intros pending run. split; [done|].
  destruct r as [msg|e]; [|done].
  subst run pending.
  unfold Datasources.deleteDatasource, Datasources.deleteDatasource_resume,
    Datasources.derived_state_in_catalog, Datasources.selected_is.
  simpl. destruct (Datasources.selectedDatasource s) as [sel|] eqn:Hsel.
  - case_bool_decide as Hname; simpl; rewrite ?Hsel.
    + split_and!; try done.
      * intros ds. rewrite list_elem_of_filter. tauto.
      * intros _ [[? [=]]|[? [=]]].
    + split_and!; try done.
      * intros ds. rewrite list_elem_of_filter. tauto.
      * intros Hin Hheld.
        destruct (Hin Hheld) as (sel' & ds & [= <-] & Hds & Heq).
        exists sel, ds. split; [done|]. split; [|done].
        rewrite list_elem_of_filter. split; [congruence|done].
  - simpl. rewrite ?Hsel. split_and!; try done.
    + intros ds. rewrite list_elem_of_filter. tauto.
    + intros Hin Hheld. by destruct (Hin Hheld) as (? & ? & [=] & _).
Qed.

Lemma deleteDatasource_clears_selection_witness :
  let s :=
    Datasources.set_tableData (Some Sample.orders_sample)
      (Datasources.set_tableSchema (Some Sample.orders_schema)
         (Datasources.set_selectedTable (Some "orders")
            (Datasources.set_selectedDatasource (Some Sample.mysql_db)
               (Datasources.set_datasources [Sample.pg_db; Sample.mysql_db]
                  Datasources.init)))) in
  let run := Datasources.deleteDatasource "mysql_db" (Api.Fulfilled "ok") s in
  Datasources.tableSchema run.2 = None
  ∧ Datasources.tableData run.2 = None
  ∧ Datasources.derived_state_in_catalog run.2.
Proof.
  intros s run.
  destruct (deleteDatasource_clears_selection "mysql_db"
              (Api.Fulfilled "ok") s)
    as (_ & _ & _ & _ & Hclear & Hinv & _).
  destruct Hclear as (_ & _ & _ & Hschema & Hdata); [reflexivity|].
  split_and!; [exact Hschema | exact Hdata |].
  apply Hinv. intros _. exists Sample.mysql_db, Sample.mysql_db.
  split; [reflexivity|]. split; [|reflexivity]. right. left.
Defined.

(** C5 fails when a [selectTable] is in flight at the deletion: the
    selected datasource is deleted, the server acknowledges, and the schema
    and the sample that arrive afterwards are stored although no
    datasource is selected and the catalog has no entry of that name left. *)
Lemma deleteDatasource_then_late_schema :
  let s :=
    Datasources.set_selectedDatasource (Some Sample.mysql_db)
      (Datasources.set_datasources [Sample.pg_db; Sample.mysql_db]
         Datasources.init) in
  let in_flight := default s (fst <$> Datasources.selectTable_call "orders" s) in
  let deleted :=
    Datasources.deleteDatasource "mysql_db" (Api.Fulfilled "deleted")
      in_flight in
  let late :=
    Datasources.selectTable_resume
      (Api.Fulfilled (Sample.orders_schema, Sample.orders_sample))
      deleted.2 in
  Datasources.derived_state_in_catalog s
  ∧ deleted.1 = true
  ∧ Datasources.datasources late = [Sample.pg_db]
  ∧ Datasources.selectedDatasource late = None
  ∧ Datasources.tableSchema late = Some Sample.orders_schema
  ∧ Datasources.tableData late = Some Sample.orders_sample
  ∧ ¬ Datasources.derived_state_in_catalog late.
Proof.
  simpl. split_and!; try done.
  - intros [[? [=]]|[? [=]]].
  - intros Hanchored.
    destruct Hanchored as (sel & ds & [=] & _). by left.
Qed.

(** C6 fails for [fetchTypes]: while its request is in flight the busy
    flag is still down, and a former error is still there, also after the
    request succeeded. *)
Lemma fetchTypes_neither_busy_nor_reset :
  let s := Datasources.set_error (Some "stale") Datasources.init in
  let pending := (Datasources.fetchTypes_call s).1 in
  Datasources.loading pending = false
  ∧ Datasources.error pending = Some "stale"
  ∧ Datasources.error (Datasources.fetchTypes (Api.Fulfilled []) s)
    = Some "stale".
Proof. by vm_compute. Qed.

(** C6, as the code has it. [fetchDatasources], [createDatasource],
    [deleteDatasource], [fetchTables] and, when a datasource is selected,
    [selectTable] raise the busy flag and set [error] to null before their
    request, and lower the busy flag when they complete, whatever the
    request settled to.  [fetchTypes] leaves the store as it is up to its
    request, never touches the busy flag, and leaves [error] as it is
    when its request succeeds. *)
Theorem busy_flag_and_error_reset :
  (∀ s, let p := (Datasources.fetchDatasources_call s).1 in
        Datasources.loading p = true ∧ Datasources.error p = None)
  ∧ (∀ r s, Datasources.loading (Datasources.fetchDatasources_resume r s)
            = false)
  ∧ (∀ n en ps s,
       let p := (Datasources.createDatasource_call n en ps s).1 in
       Datasources.loading p = true ∧ Datasources.error p = None)
  ∧ (∀ r s, Datasources.loading (Datasources.createDatasource_resume r s).2
            = false)
  ∧ (∀ n s, let p := (Datasources.deleteDatasource_call n s).1 in
            Datasources.loading p = true ∧ Datasources.error p = None)
  ∧ (∀ n r s,
       Datasources.loading (Datasources.deleteDatasource_resume n r s).2
       = false)
  ∧ (∀ n s, let p := (Datasources.fetchTables_call n s).1 in
            Datasources.loading p = true ∧ Datasources.error p = None)
  ∧ (∀ r s, Datasources.loading (Datasources.fetchTables_resume r s) = false)
  ∧ (∀ t s d, Datasources.selectedDatasource s = Some d →
       ∃ p reqs, Datasources.selectTable_call t s = Some (p, reqs)
                 ∧ Datasources.loading p = true
                 ∧ Datasources.error p = None)
  ∧ (∀ r s, Datasources.loading (Datasources.selectTable_resume r s) = false)
  ∧ (∀ s, (Datasources.fetchTypes_call s).1 = s)
  ∧ (∀ r s, Datasources.loading (Datasources.fetchTypes_resume r s)
            = Datasources.loading s)
  ∧ (∀ types s,
       Datasources.error
         (Datasources.fetchTypes_resume (Api.Fulfilled types) s)
       = Datasources.error s).
Proof.
  split_and!; try done.
  - by intros [?|?] ?.
  - intros n [?|?] s; [|done].
    unfold Datasources.deleteDatasource_resume.
    by destruct (Datasources.selected_is _ _).
  - intros t s d Hsel. unfold Datasources.selectTable_call.
    rewrite Hsel. eauto.
  - by intros [?|?] ?.
Qed.

Lemma busy_flag_and_error_reset_witness :
  ∃ p reqs,
    Datasources.selectTable_call "orders"
      (Datasources.set_selectedDatasource (Some Sample.mysql_db)
         Datasources.init)
    = Some (p, reqs)
    ∧ Datasources.loading p = true ∧ Datasources.error p = None.
Proof.
  destruct busy_flag_and_error_reset
    as (_ & _ & _ & _ & _ & _ & _ & _ & Hsel & _).
  apply (Hsel "orders" _ Sample.mysql_db). reflexivity.
Defined.

(** ** The SQL preview *)

(** C2. For the form with target [cached_data], database [mysql_db],
    table [orders], no column, no predicate and no limit, [sqlPreview] is
    the three-line statement with [SELECT *]; with columns [id] and
    [amount], predicate [amount > 100] and limit 50 it is the same
    statement with [SELECT id, amount], followed by the [WHERE] line, then
    the [LIMIT] line, and one semicolon at the end; and for every form
    whose target name, database or table is empty it is the placeholder
    comment. *)
Theorem sqlPreview_examples_and_placeholder :
  MaterializedTables.sqlPreview
    {| MaterializedTables.tableName := "cached_data";
       MaterializedTables.selectedDatabase := "mysql_db";
       MaterializedTables.selectedTable := "orders";
       MaterializedTables.selectedColumns := [];
       MaterializedTables.whereClause := "";
       MaterializedTables.limitRows := None |}
  = "CREATE TABLE mindsdb.cached_data AS
SELECT *
FROM mysql_db.orders;"
  ∧ MaterializedTables.sqlPreview
      {| MaterializedTables.tableName := "cached_data";
         MaterializedTables.selectedDatabase := "mysql_db";
         MaterializedTables.selectedTable := "orders";
         MaterializedTables.selectedColumns := ["id"; "amount"];
         MaterializedTables.whereClause := "amount > 100";
         MaterializedTables.limitRows := Some 50 |}
    = "CREATE TABLE mindsdb.cached_data AS
SELECT id, amount
FROM mysql_db.orders
WHERE amount > 100
LIMIT 50;"
  ∧ (∀ f,
       MaterializedTables.tableName f = ""
       ∨ MaterializedTables.selectedDatabase f = ""
       ∨ MaterializedTables.selectedTable f = "" →
       MaterializedTables.sqlPreview f
       = "-- Fill in the form to generate SQL").
Proof.
  split_and!; [by vm_compute | by vm_compute |].
  intros f Hmissing. unfold MaterializedTables.sqlPreview.
  destruct Hmissing as [-> | [-> | ->]]; simpl;
    repeat match goal with
           | |- context [Js.truthy ?x] => destruct (Js.truthy x); simpl
           end; done.
Qed.

Lemma sqlPreview_examples_and_placeholder_witness :
  MaterializedTables.sqlPreview
    {| MaterializedTables.tableName := "cached_data";
       MaterializedTables.selectedDatabase := "";
       MaterializedTables.selectedTable := "orders";
       MaterializedTables.selectedColumns := ["id"];
       MaterializedTables.whereClause := "id > 1";
       MaterializedTables.limitRows := Some 5 |}
  = "-- Fill in the form to generate SQL".
Proof.
  destruct sqlPreview_examples_and_placeholder as (_ & _ & Hplaceholder).
  apply Hplaceholder. right. left. reflexivity.
Defined.

(** * Further properties of the stores and the views *)

(** ** The query store *)

Lemma step_history_recorded (s : Query.State) (st : Query.Step) :
  Query.queryHistory (Query.step s st)
  = Query.queryHistory s ++ QueryLog.recorded_by st.
Proof.
  destruct st as [|r| |q now r| | r| |r| |r| |r| | |]; simpl;
    try destruct r as [res|e]; simpl; rewrite ?app_nil_r; try done.
  by destruct (QueryResult.is_error res).
Qed.

(** X1. Whatever steps of the query store run, in whatever interleaving,
    the history afterwards is the history before followed by one entry
    for each [executeQuery] that the server answered, in the order the
    answers arrived; no step removes, rewrites or reorders entries, and a
    transport failure adds none. *)
Theorem run_history_recorded (sts : list Query.Step) (s : Query.State) :
  Query.queryHistory (Query.run s sts)
  = Query.queryHistory s ++ QueryLog.recorded sts.
Proof.
  revert s. induction sts as [|st sts IH]; intros s.
  - simpl. by rewrite app_nil_r.
  - unfold Query.run in *. simpl foldl. rewrite IH, step_history_recorded.
    unfold QueryLog.recorded. rewrite (bind_cons QueryLog.recorded_by).
    by rewrite app_assoc.
Qed.

(** X2. After [executeQuery(q)], however the request settled: the store
    holds the result that was returned, [currentQuery] is [q], the busy
    flag is down, a server answer is returned as it came, and the [error]
    field is null exactly when the result is not of kind error; for a
    result of kind error it holds a message that is not empty. *)
Theorem executeQuery_outcome (q : string) (now : Js.number)
    (r : Api.Settled QueryResult.t) (s : Query.State) :
  let run := Query.executeQuery q now r s in
  Query.queryResult run.2 = Some run.1
  ∧ Query.currentQuery run.2 = q
  ∧ Query.loading run.2 = false
  ∧ (∀ res, r = Api.Fulfilled res → run.1 = res)
  ∧ (Query.error run.2 = None ↔ QueryResult.is_error run.1 = false)
  ∧ (QueryResult.is_error run.1 = true →
     ∃ m, Query.error run.2 = Some m ∧ m ≠ "").
Proof.
  intros run. subst run. destruct r as [res|e].
  - simpl. destruct (QueryResult.is_error res) eqn:Herr; simpl.
    + destruct (or_fallback (QueryResult.error res)
                  "Query execution failed") as (m & Hm & Hne); [done|].
      rewrite Hm. split_and!; try done.
      * by intros ? [= <-].
      * by exists m.
    + split_and!; try done. by intros ? [= <-].
  - destruct (detail_or_message_nonempty e "Failed to execute query")
      as (m & Hm & Hne); [done|].
    simpl. rewrite Hm. split_and!; try done. by exists m.
Qed.

Lemma recent_after_push {A : Type} (log : list A) (e : A) :
  reverse (drop (length (log ++ [e]) - 10) (log ++ [e]))
  = e :: take 9 (reverse (drop (length log - 10) log)).
Proof.
  rewrite length_app. simpl length.
  rewrite drop_app_le by lia. rewrite reverse_app. simpl. f_equal.
  rewrite take_reverse, length_drop, drop_drop. do 2 f_equal. lia.
Qed.

(** X3. When the server answers an [executeQuery], the [lastQueries] view
    afterwards begins with the entry of that query, followed by the first
    nine entries of the view before: the window slides by one, newest
    first. *)
Theorem lastQueries_after_executeQuery (q : string) (now : Js.number)
    (res : QueryResult.t) (s : Query.State) :
  (Query.lastQueries (Query.executeQuery q now (Api.Fulfilled res) s).2).1
  = {| Query.query := q; Query.timestamp := now;
       Query.success := negb (QueryResult.is_error res) |}
    :: take 9 (Query.lastQueries s).1.
Proof.
  assert (Hlog : Query.queryHistory
                   (Query.executeQuery q now (Api.Fulfilled res) s).2
                 = Query.queryHistory s
                   ++ [{| Query.query := q; Query.timestamp := now;
                          Query.success :=
                            negb (QueryResult.is_error res) |}]).
  { simpl. by destruct (QueryResult.is_error res). }
  generalize dependent (Query.executeQuery q now (Api.Fulfilled res) s).2.
  intros s' Hlog. rewrite !lastQueries_unfold. simpl fst.
  rewrite Hlog. apply recent_after_push.
Qed.

(** X4. [checkStatus] always leaves a status: on success exactly the one
    the server sent, on failure a disconnected one with no version that
    carries the failure message; so [isConnected] is the server's flag on
    success and false on failure.  A failure is not written to the [error]
    field of the store, and nothing but [status] changes. *)
Theorem checkStatus_outcome (r : Api.Settled MindsDBStatus.t)
    (s : Query.State) :
  let s' := Query.checkStatus_resume r (Query.checkStatus_call s).1 in
  Query.status s'
  = Some match r with
         | Api.Fulfilled st => st
         | Api.Rejected e =>
             {| MindsDBStatus.connected := false;
                MindsDBStatus.version := None;
                MindsDBStatus.error := Api.message e |}
         end
  ∧ Query.isConnected s'
    = match r with
      | Api.Fulfilled st => MindsDBStatus.connected st
      | Api.Rejected _ => false
      end
  ∧ (Query.checkStatus_call s).2 = [Api.getStatus]
  ∧ s' = Query.set_status (Query.status s') s.
Proof. by destruct r as [st|e]. Qed.

(** ** The datasource store *)

(** X5. [selectDatasource(d)] asks for the tables of [d]; from the call on,
    both while the request is in flight and when it has settled, [d] is
    the selected datasource and no table, schema or sample is selected;
    while in flight the table list is still the former one; afterwards it
    is the fetched list, or empty with a non-empty [error] when the
    request failed; the busy flag is up in between and down at the end. *)
Theorem selectDatasource_resets_selection (d : DataSource.t)
    (r : Api.Settled (list string)) (s : Datasources.State) :
  let pending := (Datasources.selectDatasource_call d s).1 in
  let final := Datasources.selectDatasource d r s in
  (Datasources.selectDatasource_call d s).2
  = [Api.getTables (DataSource.name d)]
  ∧ Forall
      (λ st,
         Datasources.selectedDatasource st = Some d
         ∧ Datasources.selectedTable st = None
         ∧ Datasources.tableSchema st = None
         ∧ Datasources.tableData st = None)
      [pending; final]
  ∧ Datasources.tables pending = Datasources.tables s
  ∧ Datasources.loading pending = true
  ∧ Datasources.loading final = false
  ∧ match r with
    | Api.Fulfilled tbls =>
        Datasources.tables final = tbls ∧ Datasources.error final = None
    | Api.Rejected _ =>
        Datasources.tables final = []
        ∧ ∃ m, Datasources.error final = Some m ∧ m ≠ ""
    end.
Proof.
  intros pending final. subst pending final.
  split; [done|]. split.
  { apply Forall_cons; split; [done|]. apply Forall_singleton.
    by destruct r. }
  do 3 (split; [by destruct r|]).
  destruct r as [tbls|e]; simpl; [done|]. split; [done|].
  by apply detail_or_message_nonempty.
Qed.

Lemma filter_other_names (name : string) (l : list DataSource.t) :
  (∀ ds, ds ∈ l → DataSource.name ds ≠ name) →
  filter (λ ds, DataSource.name ds ≠ name) l = l.
Proof.
  induction l as [|x l IH]; intros Hall; [done|].
  rewrite filter_cons_True by (apply Hall; left).
  f_equal. apply IH. intros ds Hds. apply Hall. by right.
Qed.

(** X6. Creating a datasource and then deleting it by its name, both
    acknowledged by the server, leaves the catalog without any entry of
    that name: the former catalog minus the entries that already bore the
    name; when no entry bore it, the catalog is back to exactly what it
    was. *)
Theorem create_then_delete_roundtrip (name engine : string)
    (parameters : gmap string Js.any) (created : DataSource.t)
    (msg : string) (s : Datasources.State) :
  DataSource.name created = name →
  let s1 :=
    (Datasources.createDatasource name engine parameters
       (Api.Fulfilled created) s).2 in
  let s2 := (Datasources.deleteDatasource name (Api.Fulfilled msg) s1).2 in
  Datasources.datasources s2
  = filter (λ ds, DataSource.name ds ≠ name) (Datasources.datasources s)
  ∧ ((∀ ds, ds ∈ Datasources.datasources s → DataSource.name ds ≠ name) →
     Datasources.datasources s2 = Datasources.datasources s).
Proof.
  intros Hname s1 s2.
  assert (Hcat : Datasources.datasources s2
                 = filter (λ ds, DataSource.name ds ≠ name)
                     (Datasources.datasources s)).
  { subst s2 s1. unfold Datasources.deleteDatasource,
      Datasources.deleteDatasource_resume. simpl.
    match goal with
    | |- context [if ?b then _ else _] => destruct b
    end; simpl; unfold Js.push; rewrite filter_app, filter_cons_False,
      filter_nil, app_nil_r by (intros Hne; by apply Hne); done. }
  split; [done|]. intros Hfresh. rewrite Hcat.
  by apply filter_other_names.
Qed.

Lemma create_then_delete_roundtrip_witness :
  let s := Datasources.set_datasources [Sample.pg_db] Datasources.init in
  Datasources.datasources
    (Datasources.deleteDatasource "mysql_db" (Api.Fulfilled "deleted")
       (Datasources.createDatasource "mysql_db" "mysql" ∅
          (Api.Fulfilled Sample.mysql_db) s).2).2
  = [Sample.pg_db].
Proof.
  intros s.
  destruct (create_then_delete_roundtrip "mysql_db" "mysql" ∅
              Sample.mysql_db "deleted" s) as [_ Hback]; [reflexivity|].
  apply Hback. intros ds Hds.
  apply list_elem_of_singleton in Hds. by subst ds.
Defined.

(** X7. A [deleteDatasource(name)] that the server acknowledges, while the
    selected datasource (if any) does not bear that name, leaves the
    selection, the table list, the selected table, the schema and the
    sample as they were; and deleting the same name once more, whatever
    the server then answers, changes nothing further in the catalog. *)
Theorem deleteDatasource_other_and_again (name msg : string)
    (again : Api.Settled string) (s : Datasources.State) :
  let s1 := (Datasources.deleteDatasource name (Api.Fulfilled msg) s).2 in
  (Datasources.selected_is name s = false →
   (Datasources.selectedDatasource s1, Datasources.tables s1,
    Datasources.selectedTable s1, Datasources.tableSchema s1,
    Datasources.tableData s1)
   = (Datasources.selectedDatasource s, Datasources.tables s,
      Datasources.selectedTable s, Datasources.tableSchema s,
      Datasources.tableData s))
  ∧ Datasources.datasources (Datasources.deleteDatasource name again s1).2
    = Datasources.datasources s1.
Proof.
  intros s1. split.
  - intros Hsel. subst s1.
    unfold Datasources.deleteDatasource, Datasources.deleteDatasource_resume,
      Datasources.selected_is in *.
    simpl in *. by rewrite Hsel.
  - destruct again as [msg'|e]; [|done].
    assert (Hcat1 : ∀ ds, ds ∈ Datasources.datasources s1 →
                          DataSource.name ds ≠ name).
    { intros ds. subst s1.
      unfold Datasources.deleteDatasource,
        Datasources.deleteDatasource_resume.
      simpl. match goal with
             | |- context [if ?b then _ else _] => destruct b
             end; simpl; rewrite list_elem_of_filter; tauto. }
    generalize dependent s1. intros s1 Hcat1.
    unfold Datasources.deleteDatasource, Datasources.deleteDatasource_resume.
    simpl. match goal with
           | |- context [if ?b then _ else _] => destruct b
           end; simpl; by apply filter_other_names.
Qed.

Lemma deleteDatasource_other_and_again_witness :
  let s :=
    Datasources.set_tableSchema (Some Sample.orders_schema)
      (Datasources.set_selectedDatasource (Some Sample.mysql_db)
         (Datasources.set_datasources [Sample.pg_db; Sample.mysql_db]
            Datasources.init)) in
  Datasources.tableSchema
    (Datasources.deleteDatasource "pg_db" (Api.Fulfilled "deleted") s).2
  = Some Sample.orders_schema.
Proof.
  intros s.
  destruct (deleteDatasource_other_and_again "pg_db" "deleted"
              (Api.Rejected Sample.network_error) s) as [Hframe _].
  exact (f_equal (λ p, p.1.2) (Hframe eq_refl)).
Defined.

(** X8. Two [selectDatasource] calls in a row, for [a] and then for [b],
    both still in flight: if the table list of [b] arrives first and that
    of [a] last, the store ends with [b] selected and the tables of [a]
    listed; if they arrive in the order of the calls, it ends with the
    tables of [b]. *)
Theorem selectDatasource_late_answer_wins (a b : DataSource.t)
    (ta tb : list string) (s : Datasources.State) :
  let begun :=
    [DatasourcesRun.selectDatasource_begin a;
     DatasourcesRun.selectDatasource_begin b] in
  let answer_a := DatasourcesRun.fetchTables_settle (Api.Fulfilled ta) in
  let answer_b := DatasourcesRun.fetchTables_settle (Api.Fulfilled tb) in
  let crossed := DatasourcesRun.run s (begun ++ [answer_b; answer_a]) in
  let in_order := DatasourcesRun.run s (begun ++ [answer_a; answer_b]) in
  Datasources.selectedDatasource crossed = Some b
  ∧ Datasources.tables crossed = ta
  ∧ Datasources.selectedDatasource in_order = Some b
  ∧ Datasources.tables in_order = tb.
Proof. done. Qed.

Lemma message_or_nonempty (e : Api.Failure) (fallback : string) :
  fallback ≠ "" → ∃ m, Api.message_or e fallback = Some m ∧ m ≠ "".
Proof. intros Hf. unfold Api.message_or. by apply or_fallback. Qed.

(** X9. When the data sources view mounts, [fetchTypes] and
    [fetchDatasources] are issued together; in whichever order the two
    requests settle, the type catalog and the datasource catalog each end
    as the list fetched for it, or as they were if the request for it
    failed; the busy flag ends down; and [error] ends null exactly when
    both requests succeeded, whatever it held before. *)
Theorem mount_any_order (rt : Api.Settled (list DataSourceTypeConfig.t))
    (rd : Api.Settled (list DataSource.t))
    (arrival : list DatasourcesRun.Step) (s : Datasources.State) :
  arrival ≡ₚ [DatasourcesRun.fetchTypes_settle rt;
              DatasourcesRun.fetchDatasources_settle rd] →
  let s' := DatasourcesRun.mount arrival s in
  Datasources.datasourceTypes s'
  = match rt with
    | Api.Fulfilled types => types
    | _ => Datasources.datasourceTypes s
    end
  ∧ Datasources.datasources s'
    = match rd with
      | Api.Fulfilled ds => ds
      | _ => Datasources.datasources s
      end
  ∧ Datasources.loading s' = false
  ∧ (Datasources.error s' = None
     ↔ (∃ types, rt = Api.Fulfilled types) ∧ (∃ ds, rd = Api.Fulfilled ds)).
Proof.
  intros Hp s'. subst s'.
  assert (Hnone : ∀ e fb, fb ≠ "" → Api.message_or e fb ≠ None).
  { intros e fb Hfb. by destruct (message_or_nonempty e fb Hfb) as (m & -> & _). }
  symmetry in Hp. apply Permutation_length_2_inv in Hp.
  destruct Hp as [-> | ->]; destruct rt as [types|e1], rd as [ds|e2];
    simpl; (split_and!; [done|done|done|]); split;
    try (by intros [[? [=]] [? [=]]]);
    try (by intros _; eauto);
    try (by intros Herr; apply Hnone in Herr).
Qed.

Lemma mount_any_order_witness :
  let s := Datasources.set_error (Some "stale") Datasources.init in
  Datasources.error
    (DatasourcesRun.mount
       [DatasourcesRun.fetchDatasources_settle
          (Api.Fulfilled [Sample.pg_db]);
        DatasourcesRun.fetchTypes_settle (Api.Fulfilled [])] s)
  = None.
Proof.
  intros s.
  destruct (mount_any_order (Api.Fulfilled []) (Api.Fulfilled [Sample.pg_db])
              [DatasourcesRun.fetchDatasources_settle
                 (Api.Fulfilled [Sample.pg_db]);
               DatasourcesRun.fetchTypes_settle (Api.Fulfilled [])] s)
    as (_ & _ & _ & Herr).
  - apply perm_swap.
  - apply Herr. split; eauto.
Defined.

(** X10. If the selected datasource is deleted while a [selectTable] is in
    flight, and the schema and the sample arrive after the deletion, the
    store takes them all the same: it ends with no datasource and no
    table selected and no catalog entry of that name, but with the late
    schema and sample in [tableSchema] and [tableData]. *)
Theorem selectTable_settles_after_delete (tableName msg : string)
    (d : DataSource.t) (sc : TableSchema.t) (da : TableData.t)
    (s : Datasources.State) :
  Datasources.selectedDatasource s = Some d →
  let s' :=
    DatasourcesRun.run s
      [DatasourcesRun.selectTable_begin tableName;
       DatasourcesRun.deleteDatasource_begin (DataSource.name d);
       DatasourcesRun.deleteDatasource_settle (DataSource.name d)
         (Api.Fulfilled msg);
       DatasourcesRun.selectTable_settle (Api.Fulfilled (sc, da))] in
  Datasources.selectedDatasource s' = None
  ∧ Datasources.selectedTable s' = None
  ∧ (∀ ds, ds ∈ Datasources.datasources s' →
           DataSource.name ds ≠ DataSource.name d)
  ∧ Datasources.tableSchema s' = Some sc
  ∧ Datasources.tableData s' = Some da.
Proof.
  intros Hsel s'. subst s'. unfold DatasourcesRun.run. simpl.
  unfold Datasources.selectTable_call. rewrite Hsel. simpl.
  unfold Datasources.deleteDatasource_resume, Datasources.selected_is.
  simpl. rewrite Hsel. rewrite bool_decide_eq_true_2 by done. simpl.
  split_and!; try done.
  intros ds. rewrite list_elem_of_filter. tauto.
Qed.

Lemma selectTable_settles_after_delete_witness :
  let s :=
    Datasources.set_selectedDatasource (Some Sample.mysql_db)
      (Datasources.set_datasources [Sample.mysql_db] Datasources.init) in
  let s' :=
    DatasourcesRun.run s
      [DatasourcesRun.selectTable_begin "orders";
       DatasourcesRun.deleteDatasource_begin "mysql_db";
       DatasourcesRun.deleteDatasource_settle "mysql_db"
         (Api.Fulfilled "deleted");
       DatasourcesRun.selectTable_settle
         (Api.Fulfilled (Sample.orders_schema, Sample.orders_sample))] in
  Datasources.selectedDatasource s' = None
  ∧ Datasources.tableSchema s' = Some Sample.orders_schema.
Proof.
  intros s s'.
  destruct (selectTable_settles_after_delete "orders" "deleted"
              Sample.mysql_db Sample.orders_schema Sample.orders_sample s)
    as (Hnone & _ & _ & Hschema & _); [reflexivity|].
  split; [exact Hnone | exact Hschema].
Defined.

(** ** The form of the materialized tables view *)

Lemma truthy_true (s : string) : Js.truthy s = true ↔ s ≠ "".
Proof. unfold Js.truthy. by destruct (String.eqb_spec s ""). Qed.

Lemma truthy_false (s : string) : Js.truthy s = false ↔ s = "".
Proof. unfold Js.truthy. by destruct (String.eqb_spec s ""). Qed.

Lemma string_app_assoc (a b c : string) :
  (a +:+ b) +:+ c = a +:+ (b +:+ c).
Proof.
  induction a as [|x a IH]; [done|].
  change (String x ((a +:+ b) +:+ c) = String x (a +:+ (b +:+ c))).
  by rewrite IH.
Qed.

Lemma string_app_nil_r (a : string) : a +:+ "" = a.
Proof.
  induction a as [|x a IH]; [done|].
  change (String x (a +:+ "") = String x a). by rewrite IH.
Qed.

(** The guard that [sqlPreview] and [createTable] share. *)
Lemma form_guard (f : MaterializedTables.Form) :
  negb (Js.truthy (MaterializedTables.tableName f))
  || negb (Js.truthy (MaterializedTables.selectedDatabase f))
  || negb (Js.truthy (MaterializedTables.selectedTable f)) = true
  ↔ MaterializedTables.tableName f = ""
    ∨ MaterializedTables.selectedDatabase f = ""
    ∨ MaterializedTables.selectedTable f = "".
Proof.
  rewrite !orb_true_iff, !negb_true_iff, !truthy_false. tauto.
Qed.

Lemma sqlPreview_placeholder_iff (f : MaterializedTables.Form) :
  MaterializedTables.sqlPreview f = "-- Fill in the form to generate SQL"
  ↔ MaterializedTables.tableName f = ""
    ∨ MaterializedTables.selectedDatabase f = ""
    ∨ MaterializedTables.selectedTable f = "".
Proof.
  rewrite <- form_guard. unfold MaterializedTables.sqlPreview.
  destruct (_ || _ || _); [done|].
  split; [|done].
  repeat match goal with
         | |- context [if ?b then _ else _] => destruct b
         | |- context [match ?o with Some _ => _ | None => _ end] =>
             destruct o
         end; simpl; discriminate.
Qed.

(** X11. [sqlPreview] is the placeholder comment exactly when the target
    name, the database or the table is empty; otherwise it is a statement
    that starts with [CREATE TABLE mindsdb.<target> AS] and a [SELECT]
    line and ends with a semicolon.  A limit of 0 is rendered like no
    limit at all. *)
Theorem sqlPreview_placeholder_or_statement (f : MaterializedTables.Form) :
  (MaterializedTables.sqlPreview f = "-- Fill in the form to generate SQL"
   ↔ MaterializedTables.tableName f = ""
     ∨ MaterializedTables.selectedDatabase f = ""
     ∨ MaterializedTables.selectedTable f = "")
  ∧ (MaterializedTables.sqlPreview f ≠ "-- Fill in the form to generate SQL"
     → ∃ rest,
         MaterializedTables.sqlPreview f
         = "CREATE TABLE mindsdb." +:+ MaterializedTables.tableName f
           +:+ " AS
SELECT " +:+ rest +:+ ";")
  ∧ MaterializedTables.sqlPreview
      (MaterializedTablesView.set_limitRows (Some 0) f)
    = MaterializedTables.sqlPreview
        (MaterializedTablesView.set_limitRows None f).
Proof.
  split; [apply sqlPreview_placeholder_iff|]. split; [|done].
  unfold MaterializedTables.sqlPreview.
  destruct (_ || _ || _); [done|]. intros _.
  exists
    ((if bool_decide (0 < length (MaterializedTables.selectedColumns f))%nat
      then Js.join ", " (MaterializedTables.selectedColumns f) else "*")
     +:+ "
FROM " +:+ MaterializedTables.selectedDatabase f +:+ "."
     +:+ MaterializedTables.selectedTable f
     +:+ (if Js.truthy (MaterializedTables.whereClause f)
          then "
WHERE " +:+ MaterializedTables.whereClause f else "")
     +:+ (if Js.truthy_num (MaterializedTables.limitRows f)
          then "
LIMIT " +:+ Js.template_num (default 0 (MaterializedTables.limitRows f))
          else "")).
  destruct (Js.truthy (MaterializedTables.whereClause f));
    destruct (MaterializedTables.limitRows f) as [n|];
    try destruct (Js.truthy_num (Some n));
    rewrite ?string_app_assoc; rewrite ?string_app_nil_r; reflexivity.
Qed.

Lemma sqlPreview_placeholder_or_statement_witness :
  ∃ rest,
    MaterializedTables.sqlPreview
      {| MaterializedTables.tableName := "cached_data";
         MaterializedTables.selectedDatabase := "mysql_db";
         MaterializedTables.selectedTable := "orders";
         MaterializedTables.selectedColumns := ["id"];
         MaterializedTables.whereClause := "";
         MaterializedTables.limitRows := Some 0 |}
    = "CREATE TABLE mindsdb." +:+ "cached_data" +:+ " AS
SELECT " +:+ rest +:+ ";".
Proof.
  apply (sqlPreview_placeholder_or_statement
           {| MaterializedTables.tableName := "cached_data";
              MaterializedTables.selectedDatabase := "mysql_db";
              MaterializedTables.selectedTable := "orders";
              MaterializedTables.selectedColumns := ["id"];
              MaterializedTables.whereClause := "";
              MaterializedTables.limitRows := Some 0 |}).
  vm_compute. discriminate.
Defined.

Lemma indexOf_absent (x : string) (l : list string) :
  x ∉ l → JsArray.indexOf x l = -1.
Proof.
  intros Hx. unfold JsArray.indexOf.
  destruct (list_find _ l) as [[i y]|] eqn:Hfind; [|done].
  apply list_find_Some in Hfind as (Hi & -> & _).
  destruct Hx. by eapply list_elem_of_lookup_2.
Qed.

Lemma indexOf_first (x : string) (l1 l2 : list string) :
  x ∉ l1 → JsArray.indexOf x (l1 ++ x :: l2) = Z.of_nat (length l1).
Proof.
  intros Hx. unfold JsArray.indexOf.
  destruct (list_find _ _) as [[i y]|] eqn:Hfind.
  - apply list_find_Some in Hfind as (Hi & -> & Hmin).
    f_equal. destruct (Nat.lt_total i (length l1)) as [Hlt|[->|Hgt]].
    + rewrite lookup_app_l in Hi by done.
      destruct Hx. by eapply list_elem_of_lookup_2.
    + done.
    + destruct (Hmin (length l1) x); [|done..].
      by rewrite list_lookup_middle.
  - apply list_find_None in Hfind.
    rewrite Forall_app, Forall_cons in Hfind. by destruct Hfind as (_ & [] & _).
Qed.

Lemma filter_all {A : Type} (P : A → Prop) `{!∀ x, Decision (P x)}
    (l : list A) :
  (∀ x, x ∈ l → P x) → filter P l = l.
Proof.
  induction l as [|x l IH]; intros Hall; [done|].
  rewrite filter_cons_True by (apply Hall; left).
  f_equal. apply IH. intros y Hy. apply Hall. by right.
Qed.

Lemma toggle_absent (x : string) (l : list string) :
  x ∉ l → MaterializedTablesView.toggle x l = l ++ [x].
Proof.
  intros Hx. unfold MaterializedTablesView.toggle.
  by rewrite indexOf_absent.
Qed.

Lemma toggle_first (x : string) (l1 l2 : list string) :
  x ∉ l1 → MaterializedTablesView.toggle x (l1 ++ x :: l2) = l1 ++ l2.
Proof.
  intros Hx. unfold MaterializedTablesView.toggle, JsArray.splice1.
  rewrite indexOf_first by done.
  replace (Z.of_nat (length l1) >? -1) with true
    by (symmetry; apply Z.gtb_lt; lia).
  replace (Js.slice_from _ _) with (length l1); [apply delete_middle|].
  unfold Js.slice_from. rewrite length_app. simpl length.
  destruct (Z.ltb_spec (Z.of_nat (length l1)) 0); lia.
Qed.

(** X12. [toggleColumn] on a selection without repetitions: the column is
    selected afterwards exactly when it was not before, every other
    column keeps its status, and the selection is again without
    repetitions; a newly selected column goes to the end, and a column
    that is deselected leaves the others in their order. *)
Theorem toggleColumn_flips (columnName : string)
    (w : MaterializedTablesView.View) :
  let before := MaterializedTables.selectedColumns
                  (MaterializedTablesView.form w) in
  let after := MaterializedTables.selectedColumns
                 (MaterializedTablesView.form
                    (MaterializedTablesView.toggleColumn columnName w)) in
  NoDup before →
  NoDup after
  ∧ (columnName ∈ after ↔ columnName ∉ before)
  ∧ (∀ c, c ≠ columnName → c ∈ after ↔ c ∈ before)
  ∧ (columnName ∉ before → after = before ++ [columnName])
  ∧ (columnName ∈ before → after = filter (λ c, c ≠ columnName) before).
Proof.
  intros before after Hnd. subst after. simpl. fold before.
  destruct (decide (columnName ∈ before)) as [Hin|Hout].
  - apply list_elem_of_split_l in Hin as (l1 & l2 & Heq & Hl1).
    rewrite Heq in *. rewrite toggle_first by done.
    apply NoDup_app in Hnd as (Hnd1 & Hdisj & Hnd2).
    apply NoDup_cons in Hnd2 as (Hl2 & Hnd2).
    split_and!.
    + apply NoDup_app. split_and!; [done| |done].
      intros c Hc Hc2. apply (Hdisj c Hc). by right.
    + rewrite !elem_of_app, elem_of_cons. intuition congruence.
    + intros c Hc. rewrite !elem_of_app, elem_of_cons. intuition congruence.
    + intros []. rewrite elem_of_app, elem_of_cons. auto.
    + intros _. rewrite filter_app, filter_cons_False by intuition congruence.
      rewrite !filter_all; [done| |].
      * intros c Hc ->. done.
      * intros c Hc ->. done.
  - rewrite toggle_absent by done. split_and!.
    + apply NoDup_app. split_and!; [done| |apply NoDup_singleton].
      intros c Hc ->%list_elem_of_singleton. done.
    + rewrite elem_of_app, list_elem_of_singleton. intuition congruence.
    + intros c Hc. rewrite elem_of_app, list_elem_of_singleton. intuition congruence.
    + done.
    + done.
Qed.

Lemma toggleColumn_flips_witness :
  MaterializedTables.selectedColumns
    (MaterializedTablesView.form
       (MaterializedTablesView.toggleColumn "id"
          {| MaterializedTablesView.form :=
               {| MaterializedTables.tableName := "";
                  MaterializedTables.selectedDatabase := "";
                  MaterializedTables.selectedTable := "";
                  MaterializedTables.selectedColumns := ["id"; "amount"];
                  MaterializedTables.whereClause := "";
                  MaterializedTables.limitRows := None |};
             MaterializedTablesView.creating := false;
             MaterializedTablesView.createSuccess := false;
             MaterializedTablesView.availableTables := [];
             MaterializedTablesView.availableColumns := [] |}))
  = filter (λ c, c ≠ "id") ["id"; "amount"].
Proof.
  apply toggleColumn_flips.
  - simpl. apply NoDup_cons. split; [|apply NoDup_singleton].
    by intros [=]%list_elem_of_singleton.
  - simpl. left.
Defined.

(** X13. Toggling a column twice: if it was not selected, the selection is
    back to exactly what it was; if it was selected, it has moved to the
    end and the selection holds the same columns. *)
Theorem toggleColumn_twice (columnName : string) (cols : list string) :
  let twice :=
    MaterializedTablesView.toggle columnName
      (MaterializedTablesView.toggle columnName cols) in
  (columnName ∉ cols → twice = cols)
  ∧ (NoDup cols → columnName ∈ cols →
     twice = filter (λ c, c ≠ columnName) cols ++ [columnName]
     ∧ twice ≡ₚ cols).
Proof.
  intros twice. subst twice. split.
  - intros Hout. rewrite (toggle_absent columnName cols) by done.
    rewrite (toggle_first columnName cols []) by done. by rewrite app_nil_r.
  - intros Hnd Hin.
    apply list_elem_of_split_l in Hin as (l1 & l2 & -> & Hl1).
    apply NoDup_app in Hnd as (Hnd1 & Hdisj & Hnd2).
    apply NoDup_cons in Hnd2 as (Hl2 & Hnd2).
    rewrite (toggle_first columnName l1 l2) by done.
    rewrite toggle_absent by (rewrite elem_of_app; intuition congruence).
    split.
    + rewrite filter_app, filter_cons_False by intuition congruence.
      rewrite !filter_all; [done| |].
      * intros c Hc ->. done.
      * intros c Hc ->. done.
    + rewrite <- (assoc (++)). apply Permutation_app_head.
      symmetry. apply Permutation_cons_append.
Qed.

Lemma toggleColumn_twice_witness :
  MaterializedTablesView.toggle "id"
    (MaterializedTablesView.toggle "id" ["amount"])
  = ["amount"].
Proof.
  apply (toggleColumn_twice "id" ["amount"]).
  by intros [=]%list_elem_of_singleton.
Defined.

Lemma selectAllColumns_unfold (w : MaterializedTablesView.View) :
  MaterializedTables.selectedColumns
    (MaterializedTablesView.form (MaterializedTablesView.selectAllColumns w))
  = (if bool_decide
          (length (MaterializedTables.selectedColumns
                     (MaterializedTablesView.form w))
           = length (MaterializedTablesView.availableColumns w))
     then []
     else MaterializedTablesView.name
            <$> MaterializedTablesView.availableColumns w)
  ∧ MaterializedTablesView.availableColumns
      (MaterializedTablesView.selectAllColumns w)
    = MaterializedTablesView.availableColumns w.
Proof.
  unfold MaterializedTablesView.selectAllColumns. by case_bool_decide.
Qed.

(** X14. [selectAllColumns] compares lengths only.  When the selection and
    the available columns differ in length, it selects every available
    column, in schema order, and a second call then clears the selection;
    when they have the same length, whatever the selection holds, it
    clears the selection, and a second call then selects every available
    column, provided there is one. *)
Theorem selectAllColumns_all_or_none (w : MaterializedTablesView.View) :
  let selected v :=
    MaterializedTables.selectedColumns (MaterializedTablesView.form v) in
  let names :=
    MaterializedTablesView.name <$> MaterializedTablesView.availableColumns w in
  let once := MaterializedTablesView.selectAllColumns w in
  let twice := MaterializedTablesView.selectAllColumns once in
  (length (selected w) ≠ length (MaterializedTablesView.availableColumns w) →
   selected once = names ∧ selected twice = [])
  ∧ (length (selected w) = length (MaterializedTablesView.availableColumns w) →
     selected once = []
     ∧ (MaterializedTablesView.availableColumns w ≠ [] →
        selected twice = names)).
Proof.
  intros selected names once twice. subst selected names twice once.
  cbv beta.
  destruct (selectAllColumns_unfold (MaterializedTablesView.selectAllColumns w))
    as [-> _].
  destruct (selectAllColumns_unfold w) as [-> ->].
  case_bool_decide as Hlen.
  - split; [done|]. intros _. split; [done|]. intros Hne.
    rewrite bool_decide_eq_false_2; [done|].
    destruct (MaterializedTablesView.availableColumns w); done.
  - split; [|done]. intros _. split; [done|].
    by rewrite bool_decide_eq_true_2 by apply length_fmap.
Qed.

Lemma selectAllColumns_all_or_none_witness :
  MaterializedTables.selectedColumns
    (MaterializedTablesView.form
       (MaterializedTablesView.selectAllColumns SampleViews.orders_view))
  = ["id"; "amount"].
Proof.
  apply (selectAllColumns_all_or_none SampleViews.orders_view). simpl. lia.
Defined.

(** X15. [createTable] returns at its guard, sending nothing, exactly when
    the preview is the placeholder.  Otherwise it sends one
    create-materialized-table request that names the target, the database
    and the table of the form, lists the selected columns, or the single
    column [*] when none is selected (never an empty list), carries the
    predicate only when it is not empty, and the limit as entered; the
    view is marked as creating, and the query store is busy with its
    error cleared. *)
Theorem createTable_request (w : MaterializedTablesView.View)
    (q : Query.State) :
  let f := MaterializedTablesView.form w in
  (MaterializedTablesView.createTable_call w q = None
   ↔ MaterializedTables.sqlPreview f = "-- Fill in the form to generate SQL")
  ∧ ∀ w1 q1 reqs,
      MaterializedTablesView.createTable_call w q = Some (w1, q1, reqs) →
      ∃ req cols,
        reqs = [Api.createMaterializedTable req]
        ∧ MaterializedTableRequest.table_name req
          = MaterializedTables.tableName f
        ∧ MaterializedTableRequest.source_database req
          = MaterializedTables.selectedDatabase f
        ∧ MaterializedTableRequest.source_table req
          = MaterializedTables.selectedTable f
        ∧ MaterializedTableRequest.columns req = Some cols
        ∧ cols ≠ []
        ∧ (MaterializedTables.selectedColumns f = [] → cols = ["*"])
        ∧ (MaterializedTables.selectedColumns f ≠ [] →
           cols = MaterializedTables.selectedColumns f)
        ∧ MaterializedTableRequest.where_clause req
          = (if decide (MaterializedTables.whereClause f = "") then None
             else Some (MaterializedTables.whereClause f))
        ∧ MaterializedTableRequest.limit req = MaterializedTables.limitRows f
        ∧ w1 = MaterializedTablesView.set_creating true w
        ∧ Query.loading q1 = true
        ∧ Query.error q1 = None.
Proof.
  intros f. rewrite sqlPreview_placeholder_iff, <- form_guard. subst f.
  unfold MaterializedTablesView.createTable_call.
  destruct (_ || _ || _) eqn:Hguard.
  - split; [done|]. by intros.
  - split; [split; done|]. intros w1 q1 reqs [= <- <- <-].
    eexists _, _. split; [reflexivity|]. simpl.
    split_and!; try done.
    + destruct (MaterializedTables.selectedColumns _); done.
    + by intros ->.
    + intros Hne.
      destruct (MaterializedTables.selectedColumns _); done.
    + case_decide as Hw.
      * by rewrite (proj2 (truthy_false _) Hw).
      * by rewrite (proj2 (truthy_true _) Hw).
Qed.

Lemma createTable_request_witness :
  ∃ req cols,
    (MaterializedTablesView.createTable_call SampleViews.orders_view Query.init)
    = Some (MaterializedTablesView.set_creating true SampleViews.orders_view,
            Query.set_error None (Query.set_loading true Query.init),
            [Api.createMaterializedTable req])
    ∧ MaterializedTableRequest.columns req = Some cols ∧ cols = ["*"].
Proof.
  destruct (createTable_request SampleViews.orders_view Query.init) as [_ Hreq].
  destruct (Hreq _ _ _ eq_refl)
    as (req & cols & [= <-] & _ & _ & _ & Hcols & _ & Hstar & _).
  eexists _, _. split; [reflexivity|]. split; [exact Hcols|].
  apply Hstar. reflexivity.
Defined.

(** X16. When the request of [createTable] settles, the view stops
    creating and the form is still as the user filled it; the query store
    is no longer busy, and its result and history are untouched.  On
    success the view shows the success notice, and the delayed reset then
    empties the target name, the table, the columns, the predicate and the
    limit, keeps the database, hides the notice, and brings the preview
    back to the placeholder.  On failure no notice is shown and the query
    store holds a non-empty error. *)
Theorem createTable_settled (r : Api.Settled string)
    (w : MaterializedTablesView.View) (q : Query.State) :
  let w' := (MaterializedTablesView.createTable_resume r w q).1 in
  let q' := (MaterializedTablesView.createTable_resume r w q).2 in
  let w'' := MaterializedTablesView.createTable_timeout w' in
  MaterializedTablesView.creating w' = false
  ∧ MaterializedTablesView.form w' = MaterializedTablesView.form w
  ∧ Query.loading q' = false
  ∧ (Query.queryResult q', Query.queryHistory q')
    = (Query.queryResult q, Query.queryHistory q)
  ∧ match r with
    | Api.Fulfilled _ =>
        MaterializedTablesView.createSuccess w' = true
        ∧ Query.error q' = Query.error q
        ∧ MaterializedTablesView.createSuccess w'' = false
        ∧ MaterializedTablesView.form w''
          = {| MaterializedTables.tableName := "";
               MaterializedTables.selectedDatabase :=
                 MaterializedTables.selectedDatabase
                   (MaterializedTablesView.form w);
               MaterializedTables.selectedTable := "";
               MaterializedTables.selectedColumns := [];
               MaterializedTables.whereClause := "";
               MaterializedTables.limitRows := None |}
        ∧ MaterializedTables.sqlPreview (MaterializedTablesView.form w'')
          = "-- Fill in the form to generate SQL"
    | Api.Rejected _ =>
        MaterializedTablesView.createSuccess w'
        = MaterializedTablesView.createSuccess w
        ∧ ∃ m, Query.error q' = Some m ∧ m ≠ ""
    end.
Proof.
  destruct r as [msg|e]; simpl; split_and!; try done.
  by apply detail_or_message_nonempty.
Qed.

(** X17. [onDatabaseChange] empties the selected table, the selected
    columns and the available columns and keeps the database, so the
    preview is the placeholder.  With no database chosen it sends nothing,
    leaves the datasource store alone and keeps the table list it had;
    with a database chosen it asks the store for the tables of that
    database, and when the request settles the available tables are the
    list of the store: the fetched one, or the empty one after a failure. *)
Theorem onDatabaseChange_resets (w : MaterializedTablesView.View)
    (d : Datasources.State) :
  let w1 := (MaterializedTablesView.onDatabaseChange_call w d).1.1 in
  let d1 := (MaterializedTablesView.onDatabaseChange_call w d).1.2 in
  let reqs := (MaterializedTablesView.onDatabaseChange_call w d).2 in
  let db := MaterializedTables.selectedDatabase
              (MaterializedTablesView.form w) in
  MaterializedTablesView.form w1
  = MaterializedTablesView.set_selectedColumns []
      (MaterializedTablesView.set_selectedTable ""
         (MaterializedTablesView.form w))
  ∧ MaterializedTablesView.availableColumns w1 = []
  ∧ MaterializedTables.sqlPreview (MaterializedTablesView.form w1)
    = "-- Fill in the form to generate SQL"
  ∧ (db = "" →
     reqs = [] ∧ d1 = d
     ∧ MaterializedTablesView.availableTables w1
       = MaterializedTablesView.availableTables w)
  ∧ (db ≠ "" →
     reqs = [Api.getTables db]
     ∧ ∀ r,
         let w2 := (MaterializedTablesView.onDatabaseChange_resume r w1 d1).1 in
         let d2 := (MaterializedTablesView.onDatabaseChange_resume r w1 d1).2 in
         MaterializedTablesView.availableTables w2 = Datasources.tables d2
         ∧ Datasources.tables d2
           = match r with Api.Fulfilled tbls => tbls | _ => [] end
         ∧ MaterializedTablesView.form w2 = MaterializedTablesView.form w1).
Proof.
  intros w1 d1 reqs db. subst w1 d1 reqs.
  unfold MaterializedTablesView.onDatabaseChange_call. simpl. fold db.
  destruct (Js.truthy db) eqn:Hdb; simpl.
  - apply truthy_true in Hdb. split_and!; try done.
    + apply sqlPreview_placeholder_iff. simpl. auto.
    + intros _. split; [done|]. intros r. by destruct r.
  - apply truthy_false in Hdb. split_and!; try done.
    apply sqlPreview_placeholder_iff. simpl. auto.
Qed.

Lemma onDatabaseChange_resets_witness :
  (MaterializedTablesView.onDatabaseChange_call SampleViews.orders_view
     Datasources.init).2
  = [Api.getTables "mysql_db"].
Proof.
  apply (onDatabaseChange_resets SampleViews.orders_view Datasources.init).
  discriminate.
Defined.

(** ** The modal of the data sources view *)

Lemma put_defaults_frame (fields : list DataSourceField.t)
    (m : DataSourcesView.Modal) :
  foldl DataSourcesView.put_default m fields
  = DataSourcesView.set_formData
      (DataSourcesView.formData
         (foldl DataSourcesView.put_default m fields)) m.
Proof.
  revert m. induction fields as [|fd fields IH]; intros m; simpl.
  - by destruct m.
  - rewrite IH. unfold DataSourcesView.put_default.
    by destruct (DataSourceField.default fd); destruct m.
Qed.

Lemma put_defaults_lookup (fields : list DataSourceField.t)
    (m : DataSourcesView.Modal) (k : string) :
  DataSourcesView.formData (foldl DataSourcesView.put_default m fields) !! k
  = match
      list_find
        (λ fd, DataSourceField.name fd = k
               ∧ is_Some (DataSourceField.default fd))
        (reverse fields)
    with
    | Some (_, fd) => DataSourceField.default fd
    | None => DataSourcesView.formData m !! k
    end.
Proof.
  revert m. induction fields as [|fd fields IH] using rev_ind; intros m.
  - done.
  - rewrite foldl_app, reverse_app. simpl.
    unfold DataSourcesView.put_default at 1.
    case_decide as Hk.
    + destruct Hk as [<- [v Hdef]]. rewrite Hdef. simpl.
      by rewrite lookup_insert_eq.
    + assert (Hrest :
        DataSourcesView.formData
          (foldl DataSourcesView.put_default m fields) !! k
        = match
            prod_map S id
              <$> list_find
                    (λ fd0, DataSourceField.name fd0 = k
                            ∧ is_Some (DataSourceField.default fd0))
                    (reverse fields)
          with
          | Some (_, fd0) => DataSourceField.default fd0
          | None => DataSourcesView.formData m !! k
          end).
      { rewrite IH. by destruct (list_find _ _) as [[??]|]. }
      rewrite <- Hrest.
      destruct (DataSourceField.default fd) as [v|] eqn:Hdef; [|done].
      simpl. apply lookup_insert_ne. intros Heq. apply Hk. by split.
Qed.

Lemma NoDup_names_inj (l : list DataSourceField.t) (x y : DataSourceField.t) :
  NoDup (DataSourceField.name <$> l) → x ∈ l → y ∈ l →
  DataSourceField.name x = DataSourceField.name y → x = y.
Proof.
  induction l as [|z l IH]; intros Hnd Hx Hy Heq.
  - by apply elem_of_nil in Hx.
  - rewrite fmap_cons in Hnd. apply NoDup_cons in Hnd as [Hz Hnd].
    apply elem_of_cons in Hx as [->|Hx], Hy as [->|Hy]; [done| | |by apply IH].
    + destruct Hz. rewrite Heq. by apply list_elem_of_fmap_2.
    + destruct Hz. rewrite <- Heq. by apply list_elem_of_fmap_2.
Qed.

(** X18. [selectType] records the type and starts the form data afresh:
    every entry of the form data afterwards is the default of a field of
    the type, under that field's name, and nothing of the former form data
    is left; when the field names are distinct, each field with a default
    has it in the form data and each field without one has no entry.  The
    rest of the modal is as it was. *)
Theorem selectType_defaults (type : DataSourceTypeConfig.t)
    (m : DataSourcesView.Modal) :
  let m' := DataSourcesView.selectType type m in
  let fields := DataSourceTypeConfig.fields type in
  m' = DataSourcesView.set_formData (DataSourcesView.formData m')
         (DataSourcesView.set_selectedType (Some type) m)
  ∧ (∀ k v, DataSourcesView.formData m' !! k = Some v →
            ∃ fd, fd ∈ fields ∧ DataSourceField.name fd = k
                  ∧ DataSourceField.default fd = Some v)
  ∧ (NoDup (DataSourceField.name <$> fields) →
     ∀ fd, fd ∈ fields →
           DataSourcesView.formData m' !! DataSourceField.name fd
           = DataSourceField.default fd).
Proof.
  intros m' fields. subst m'. unfold DataSourcesView.selectType. fold fields.
  split; [|split].
  - rewrite put_defaults_frame at 1. by destruct m.
  - intros k v. rewrite put_defaults_lookup. simpl.
    destruct (list_find _ _) as [[i fd]|] eqn:Hfind; [|by rewrite lookup_empty].
    apply list_find_Some in Hfind as (Hi & [Hname _] & _).
    intros Hv. exists fd. split_and!; [|done..].
    apply elem_of_reverse. by eapply list_elem_of_lookup_2.
  - intros Hnd fd Hfd. rewrite put_defaults_lookup. simpl.
    destruct (list_find _ _) as [[i fd']|] eqn:Hfind.
    + apply list_find_Some in Hfind as (Hi & [Hname _] & _).
      f_equal. apply (NoDup_names_inj fields); [done| |done..].
      apply elem_of_reverse. by eapply list_elem_of_lookup_2.
    + rewrite lookup_empty. apply list_find_None in Hfind.
      rewrite Forall_forall in Hfind.
      destruct (DataSourceField.default fd) as [v|] eqn:Hdef; [|done].
      destruct (Hfind fd); [by apply elem_of_reverse|].
      split; [done|]. by rewrite Hdef.
Qed.

Lemma mysql_type_NoDup :
  NoDup (DataSourceField.name
           <$> DataSourceTypeConfig.fields SampleViews.mysql_type).
Proof.
  simpl. apply NoDup_cons. split; [|apply NoDup_singleton].
  by intros [=]%list_elem_of_singleton.
Qed.

Lemma selectType_defaults_witness :
  DataSourcesView.formData
    (DataSourcesView.selectType SampleViews.mysql_type
       SampleViews.closed_modal) !! "port"
  = Some (Js.Num 3306).
Proof.
  destruct (selectType_defaults SampleViews.mysql_type
              SampleViews.closed_modal) as (_ & _ & Hfields).
  apply (Hfields mysql_type_NoDup SampleViews.port_field).
  right. left.
Defined.

(** X19. [createConnection] returns at its guard, sending nothing, exactly
    when no type is chosen or the connection name is empty.  Otherwise it
    sends one create request with the name, the engine of the type and the
    form data, marks the modal as creating and the store as busy with its
    error cleared.  When the request settles the modal stops creating and
    keeps the type, the form data and the name that were entered.  On
    success it shows the success notice, the new datasource is the last
    entry of the catalog, and the delayed close hides and empties the
    modal; on
    failure the catalog is as it was and the store holds a non-empty
    error. *)
Theorem createConnection_flow (m : DataSourcesView.Modal)
    (s : Datasources.State) :
  (DataSourcesView.createConnection_call m s = None
   ↔ DataSourcesView.selectedType m = None
     ∨ DataSourcesView.connectionName m = "")
  ∧ ∀ ty,
      DataSourcesView.selectedType m = Some ty →
      DataSourcesView.connectionName m ≠ "" →
      ∃ s1,
        DataSourcesView.createConnection_call m s
        = Some (DataSourcesView.set_creating true m, s1,
                [Api.create (DataSourcesView.connectionName m)
                   (DataSourceTypeConfig.type ty)
                   (DataSourcesView.formData m)])
        ∧ Datasources.loading s1 = true
        ∧ Datasources.error s1 = None
        ∧ ∀ r,
            let m' :=
              (DataSourcesView.createConnection_resume r
                 (DataSourcesView.set_creating true m) s1).1 in
            let s' :=
              (DataSourcesView.createConnection_resume r
                 (DataSourcesView.set_creating true m) s1).2 in
            DataSourcesView.creating m' = false
            ∧ (DataSourcesView.showAddModal m',
               DataSourcesView.selectedType m',
               DataSourcesView.formData m',
               DataSourcesView.connectionName m')
              = (DataSourcesView.showAddModal m,
                 DataSourcesView.selectedType m,
                 DataSourcesView.formData m,
                 DataSourcesView.connectionName m)
            ∧ Datasources.loading s' = false
            ∧ match r with
              | Api.Fulfilled created =>
                  DataSourcesView.createSuccess m' = true
                  ∧ Datasources.datasources s'
                    = Datasources.datasources s ++ [created]
                  ∧ Datasources.error s' = None
                  ∧ DataSourcesView.createConnection_timeout m'
                    = {| DataSourcesView.showAddModal := false;
                         DataSourcesView.selectedType := None;
                         DataSourcesView.formData := ∅;
                         DataSourcesView.connectionName := "";
                         DataSourcesView.creating := false;
                         DataSourcesView.createSuccess := false |}
              | Api.Rejected _ =>
                  DataSourcesView.createSuccess m'
                  = DataSourcesView.createSuccess m
                  ∧ Datasources.datasources s' = Datasources.datasources s
                  ∧ ∃ msg, Datasources.error s' = Some msg ∧ msg ≠ ""
              end.
Proof.
  unfold DataSourcesView.createConnection_call. split.
  - destruct (DataSourcesView.selectedType m) as [ty|]; [|by split; auto].
    destruct (Js.truthy (DataSourcesView.connectionName m)) eqn:Hname; simpl.
    + apply truthy_true in Hname. split; [done|]. by intros [|].
    + apply truthy_false in Hname. split; auto.
  - intros ty Hty Hname. apply truthy_true in Hname.
    rewrite Hty, Hname. simpl.
    eexists. split; [reflexivity|]. split_and!; try done.
    intros r. destruct r as [created|e]; simpl; rewrite ?Hty;
      split_and!; try done.
    by apply detail_or_message_nonempty.
Qed.

Lemma createConnection_flow_witness :
  ∃ s1,
    DataSourcesView.createConnection_call SampleViews.filled_modal
      Datasources.init
    = Some (DataSourcesView.set_creating true SampleViews.filled_modal, s1,
            [Api.create "shop" "mysql"
               (DataSourcesView.formData SampleViews.filled_modal)])
    ∧ Datasources.loading s1 = true.
Proof.
  destruct (createConnection_flow SampleViews.filled_modal Datasources.init)
    as [_ Hsend].
  destruct (Hsend SampleViews.mysql_type eq_refl)
    as (s1 & Hcall & Hbusy & _); [discriminate|].
  exists s1. split; [exact Hcall | exact Hbusy].
Defined.

(** ** The routes of the API client *)

Import Stdlib.Strings.Ascii.

Lemma string_app_cons (c : Ascii.ascii) (s t : string) :
  String c s +:+ t = String c (s +:+ t).
Proof. done. Qed.

Lemma string_app_nil_l (t : string) : "" +:+ t = t.
Proof. done. Qed.

(** A slash-free name followed by nothing or by a slash: the name ends
    where the first slash is. *)
Lemma slash_free_split (n1 n2 r1 r2 : string) :
  ApiUrl.slash_free n1 = true → ApiUrl.slash_free n2 = true →
  (r1 = "" ∨ ∃ r, r1 = String "/"%char r) → (r2 = "" ∨ ∃ r, r2 = String "/"%char r) →
  n1 +:+ r1 = n2 +:+ r2 → n1 = n2 ∧ r1 = r2.
Proof.
  revert n2. induction n1 as [|c n1 IH]; intros [|c2 n2] H1 H2 Hr1 Hr2 Heq;
    rewrite ?string_app_cons, ?string_app_nil_l in Heq.
  - done.
  - simpl in H2. apply andb_true_iff in H2 as [Hc _].
    destruct Hr1 as [->|[r ->]]; [done|].
    injection Heq as <- _. done.
  - simpl in H1. apply andb_true_iff in H1 as [Hc _].
    destruct Hr2 as [->|[r ->]]; [done|].
    injection Heq as -> _. done.
  - simpl in H1, H2.
    apply andb_true_iff in H1 as [_ H1], H2 as [_ H2].
    injection Heq as -> Heq.
    destruct (IH n2 H1 H2 Hr1 Hr2 Heq) as [-> ->]. done.
Qed.

Ltac split_at_slash :=
  match goal with
  | H : ?n1 +:+ ?r1 = ?n2 +:+ ?r2 |- _ =>
      apply slash_free_split in H;
      [destruct H as [? H]
      |done|done
      |first [by left | right; eexists; reflexivity]
      |first [by left | right; eexists; reflexivity]]
  | H : ?n1 +:+ ?r1 = String ?c ?s |- _ =>
      change (n1 +:+ r1 = String c s +:+ "") in H
  | H : String ?c ?s = ?n2 +:+ ?r2 |- _ =>
      change (String c s +:+ "" = n2 +:+ r2) in H
  end.

(** X20. Two calls of the API client whose datasource and table names
    contain no slash go to the same method and path only if they are the
    same call on the same names (they may differ in what they send along:
    the body, or the row limit of a sample). *)
Theorem route_determines_call (r1 r2 : Api.Request) :
  ApiUrl.names_slash_free r1 = true → ApiUrl.names_slash_free r2 = true →
  ApiUrl.route r1 = ApiUrl.route r2 →
  ApiUrl.addressed r1 = ApiUrl.addressed r2.
Proof.
  intros H1 H2 Hroute.
  destruct r1, r2; simpl in *; try done;
    injection Hroute as Hpath;
    rewrite ?string_app_cons, ?string_app_nil_l in Hpath;
    try done;
    repeat match goal with
           | H : _ && _ = true |- _ => apply andb_true_iff in H as [? ?]
           end;
    simplify_eq; try done;
    repeat (split_at_slash; simplify_eq); done.
Qed.

Lemma route_determines_call_witness :
  ApiUrl.addressed (Api.getSampleData "mysql_db" "orders" 10)
  = ApiUrl.addressed (Api.getSampleData "mysql_db" "orders" 50).
Proof.
  apply route_determines_call; reflexivity.
Defined.

(** X21. [onTableChange] empties the selected columns and, only when both
    a database and a table are chosen, asks for the schema of that table.
    When the schema arrives, the available columns are its columns, names
    and types in schema order, and a [selectAllColumns] after that selects
    exactly the names of the schema's columns, if it has any.  When the
    request fails, the failure is the outcome of [onTableChange]: it is
    not caught, and the view keeps the available columns it had. *)
Theorem onTableChange_loads_columns (w : MaterializedTablesView.View) :
  let w1 := (MaterializedTablesView.onTableChange_call w).1 in
  let reqs := (MaterializedTablesView.onTableChange_call w).2 in
  let f := MaterializedTablesView.form w in
  w1 = MaterializedTablesView.set_form
         (MaterializedTablesView.set_selectedColumns [] f) w
  ∧ reqs
    = (if decide (MaterializedTables.selectedDatabase f ≠ ""
                  ∧ MaterializedTables.selectedTable f ≠ "")
       then [Api.getTableSchema (MaterializedTables.selectedDatabase f)
               (MaterializedTables.selectedTable f)]
       else [])
  ∧ (∀ schema, ∃ w2,
       MaterializedTablesView.onTableChange_resume (Api.Fulfilled schema) w1
       = Api.Fulfilled w2
       ∧ MaterializedTablesView.form w2 = MaterializedTablesView.form w1
       ∧ MaterializedTablesView.name
           <$> MaterializedTablesView.availableColumns w2
         = TableColumn.name <$> TableSchema.columns schema
       ∧ MaterializedTablesView.type
           <$> MaterializedTablesView.availableColumns w2
         = TableColumn.type <$> TableSchema.columns schema
       ∧ (TableSchema.columns schema ≠ [] →
          MaterializedTables.selectedColumns
            (MaterializedTablesView.form
               (MaterializedTablesView.selectAllColumns w2))
          = TableColumn.name <$> TableSchema.columns schema))
  ∧ (∀ e, MaterializedTablesView.onTableChange_resume (Api.Rejected e) w1
          = Api.Rejected e).
Proof.
  intros w1 reqs f.
  assert (Hw1 : w1 = MaterializedTablesView.set_form
                       (MaterializedTablesView.set_selectedColumns [] f) w).
  { subst w1. unfold MaterializedTablesView.onTableChange_call.
    by destruct (_ && _). }
  rewrite Hw1. clear Hw1 w1. subst reqs.
  assert (Hname : ∀ cols : list TableColumn.t,
            MaterializedTablesView.name
              <$> ((λ c, {| MaterializedTablesView.name := TableColumn.name c;
                            MaterializedTablesView.type := TableColumn.type c |})
                     <$> cols)
            = TableColumn.name <$> cols).
  { intros cols. by rewrite <- list_fmap_compose. }
  split_and!.
  - done.
  - unfold MaterializedTablesView.onTableChange_call. simpl. fold f.
    destruct (Js.truthy (MaterializedTables.selectedDatabase f)) eqn:Hdb;
      destruct (Js.truthy (MaterializedTables.selectedTable f)) eqn:Htb;
      simpl; rewrite ?truthy_true, ?truthy_false in *;
      case_decide as Hd; try done; try tauto.
  - intros schema. eexists. split; [reflexivity|].
    split_and!.
    + done.
    + apply Hname.
    + simpl. by rewrite <- list_fmap_compose.
    + intros Hne.
      match goal with
      | |- context [MaterializedTablesView.selectAllColumns ?v] =>
          destruct (selectAllColumns_unfold v) as [-> _]
      end.
      simpl. rewrite bool_decide_eq_false_2; [apply Hname|].
      rewrite length_fmap. by destruct (TableSchema.columns schema).
  - done.
Qed.

Lemma onTableChange_loads_columns_witness :
  ∃ w2,
    MaterializedTablesView.onTableChange_resume
      (Api.Fulfilled Sample.orders_schema)
      (MaterializedTablesView.onTableChange_call SampleViews.orders_view).1
    = Api.Fulfilled w2
    ∧ MaterializedTables.selectedColumns
        (MaterializedTablesView.form
           (MaterializedTablesView.selectAllColumns w2))
      = ["id"].
Proof.
  destruct (onTableChange_loads_columns SampleViews.orders_view)
    as (_ & _ & Hok & _).
  destruct (Hok Sample.orders_schema) as (w2 & Hres & _ & _ & _ & Hall).
  exists w2. split; [exact Hres|]. apply Hall. discriminate.
Defined.
